(** * dsttime: US daylight-saving time on top of NTP, for MicroPython

    A shallow embedding of [dsttime.py] and the properties of its
    DST-boundary computation, its UTC-to-local conversion, its NTP client
    and its retry loop.

    The platform modules the program imports ([time], [socket], [struct],
    [machine]) are modelled in their own modules below; every function of
    [dsttime.py] itself is transcribed line by line.  Definitions come
    first, the properties after them. *)

From Stdlib Require Import ZArith Lia Bool.
From Stdlib Require Import Strings.Byte.
From stdpp Require Import gmap strings list.
From Equations Require Import Equations.

Local Open Scope Z_scope.

(** ** The calendar timestamp

    [time.localtime] and [time.gmtime] of MicroPython return the 8-tuple
    [(year, month, mday, hour, minute, second, weekday, yearday)]. *)

Record struct_time : Type := mk_time {
  tm_year : Z;
  tm_mon : Z;
  tm_mday : Z;
  tm_hour : Z;
  tm_min : Z;
  tm_sec : Z;
  tm_wday : Z;
  tm_yday : Z
}.

(** ** The platform's [time] module

    Proleptic Gregorian calendar, epoch 1970-01-01 00:00:00 (the epoch for
    which [NTP_DELTA] is the right constant), no time zone: [localtime] and
    [gmtime] are the same function.  Day numbers are ordinals with
    0001-01-01 as day 1, which was a Monday. *)

Module time.

Definition is_leap (y : Z) : bool :=
  (y mod 4 =? 0) && (negb (y mod 100 =? 0) || (y mod 400 =? 0)).

(** Number of days before January 1st of year [y]. *)
Definition days_before_year (y : Z) : Z :=
  let p := y - 1 in 365 * p + p / 4 - p / 100 + p / 400.

Definition days_in_month (y m : Z) : Z :=
  if m =? 2 then (if is_leap y then 29 else 28)
  else if (m =? 4) || (m =? 6) || (m =? 9) || (m =? 11) then 30
  else 31.

(** Number of days of year [y] before the first day of month [m]. *)
Definition days_before_month (y m : Z) : Z :=
  let leap := if is_leap y then 1 else 0 in
  if m <=? 1 then 0
  else if m =? 2 then 31
  else if m =? 3 then 59 + leap
  else if m =? 4 then 90 + leap
  else if m =? 5 then 120 + leap
  else if m =? 6 then 151 + leap
  else if m =? 7 then 181 + leap
  else if m =? 8 then 212 + leap
  else if m =? 9 then 243 + leap
  else if m =? 10 then 273 + leap
  else if m =? 11 then 304 + leap
  else 334 + leap.

Definition ymd_to_ord (y m d : Z) : Z :=
  days_before_year y + days_before_month y m + d.

(** Ordinal of 1970-01-01. *)
Definition EPOCH_ORD : Z := 719163.

(** [time.mktime]: seconds since the epoch of a timestamp; the weekday and
    yearday fields are ignored. *)
Definition mktime (t : struct_time) : Z :=
  (ymd_to_ord (tm_year t) (tm_mon t) (tm_mday t) - EPOCH_ORD) * 86400
  + tm_hour t * 3600 + tm_min t * 60 + tm_sec t.

(** Year, month and day of an ordinal: the year is found by peeling off
    400-, 100-, 4- and 1-year cycles, the month from an estimate that is
    corrected downwards when it overshoots. *)
Definition ord_to_ymd (ord : Z) : Z * Z * Z :=
  let n := ord - 1 in
  let n400 := n / 146097 in
  let n := n mod 146097 in
  let n100 := n / 36524 in
  let n := n mod 36524 in
  let n4 := n / 1461 in
  let n := n mod 1461 in
  let n1 := n / 365 in
  let n := n mod 365 in
  let year := n400 * 400 + 1 + n100 * 100 + n4 * 4 + n1 in
  if (n1 =? 4) || (n100 =? 4) then (year - 1, 12, 31)
  else
    let month := (n + 50) / 32 in
    let preceding := days_before_month year month in
    if preceding >? n
    then (year, month - 1, n - days_before_month year (month - 1) + 1)
    else (year, month, n - preceding + 1).

(** [time.localtime] (and [time.gmtime]): the timestamp of an epoch
    instant; weekday 0 is Monday and 6 is Sunday, yearday 1 is January
    1st. *)
Definition localtime (secs : Z) : struct_time :=
  let days := secs / 86400 in
  let rem := secs mod 86400 in
  let ord := days + EPOCH_ORD in
  let '(y, m, d) := ord_to_ymd ord in
  {| tm_year := y; tm_mon := m; tm_mday := d;
     tm_hour := rem / 3600; tm_min := (rem mod 3600) / 60; tm_sec := rem mod 60;
     tm_wday := (ord + 6) mod 7;
     tm_yday := ord - days_before_year y |}.

Definition gmtime (secs : Z) : struct_time := localtime secs.

End time.

(** ** [dsttime.py]: constants *)

Definition NTP_DELTA : Z := 2208988800.
Definition NTP_HOST : string := "pool.ntp.org".

(** Standard UTC offsets, in hours. *)
Definition TIMEZONES : gmap string Z :=
  {[ "US/Eastern" := -5; "US/Central" := -6; "US/Mountain" := -7; "US/Pacific" := -8 ]}.

(** ** [is_dst] *)

(** Weekday of March 1st of [year]: [time.localtime(time.mktime((year, 3, 1,
    0, 0, 0, 0, 0)))[6]]. *)
Definition march1_wday (year : Z) : Z :=
  let march1 := time.mktime (mk_time year 3 1 0 0 0 0 0) in
  tm_wday (time.localtime march1).

Definition dst_start_day (year : Z) : Z :=
  let w := march1_wday year in
  if w <=? 6 then 14 - w else 7 - (w - 7).

Definition nov1_wday (year : Z) : Z :=
  let nov1 := time.mktime (mk_time year 11 1 0 0 0 0 0) in
  tm_wday (time.localtime nov1).

Definition dst_end_day (year : Z) : Z :=
  1 + (7 - nov1_wday year) mod 7.

Definition is_dst (time_tuple : struct_time) : bool :=
  let year := tm_year time_tuple in
  let month := tm_mon time_tuple in
  let day := tm_mday time_tuple in
  let hour := tm_hour time_tuple in
  if (month <? 3) || (month >? 11) then false
  else if (3 <? month) && (month <? 11) then true
  else if month =? 3 then
    if day >? dst_start_day year then true
    else if day =? dst_start_day year then hour >=? 2
    else false
  else if month =? 11 then
    if day <? dst_end_day year then true
    else if day =? dst_end_day year then hour <? 2
    else false
  else false.

(** ** [utc_to_local] *)

Definition utc_to_local (utc_time : struct_time) (tz_offset : Z) : struct_time :=
  let epoch := time.mktime utc_time in
  let local_epoch := epoch + tz_offset * 3600 in
  let local_time := time.localtime local_epoch in
  if is_dst local_time then time.localtime (local_epoch + 3600) else local_time.

(** ** Effects

    The program talks to the network, prints notices and sets the device
    clock.  A computation takes the world, and gives back a value or a
    raised exception, the events it emitted in order, and the new world. *)

Inductive exn : Type :=
  | OSError (errno : Z)
  | RuntimeError (msg : string)
  | ValueError (msg : string).

Inductive result (A : Type) : Type :=
  | Ok (a : A)
  | Raise (e : exn).
Arguments Ok {A} a.
Arguments Raise {A} e.

(** What the network does during one exchange with the time server. *)
Inductive attempt : Type :=
  | Unresolved                      (* address resolution fails *)
  | SendError (errno : Z)           (* [sendto] raises *)
  | RecvTimeout                     (* no reply within the timeout *)
  | RecvError (errno : Z)           (* [recv] raises *)
  | Reply (datagram : list byte).   (* a reply datagram arrives *)

Definition sockaddr : Type := string * Z.

Inductive event : Type :=
  | EvGetaddrinfo (host : string) (port : Z)
  | EvSocket (fd : nat)
  | EvSettimeout (fd : nat) (secs : Z)
  | EvSendto (fd : nat) (msg : list byte) (addr : sockaddr)
  | EvRecv (fd : nat) (bufsize : nat)
  | EvClose (fd : nat)
  | EvPrint (line : string)
  | EvRtcDatetime (tm : list Z).

(** [net k] is what the network does for the [k]-th address resolution and
    the exchange that follows it; [calls] counts the resolutions made so
    far; [open_fds] is the set of sockets that are open. *)
Record world : Type := mk_world {
  net : nat → attempt;
  calls : nat;
  next_fd : nat;
  open_fds : gset nat
}.

Definition M (A : Type) : Type := world → result A * list event * world.

Definition run {A} (m : M A) (w : world) : result A * list event * world := m w.

#[global] Instance M_ret : MRet M := λ A a w, (Ok a, [], w).

#[global] Instance M_bind : MBind M := λ A B f m w,
  match m w with
  | (Ok a, evs, w1) =>
      match f a w1 with
      | (r, evs', w2) => (r, evs ++ evs', w2)
      end
  | (Raise e, evs, w1) => (Raise e, evs, w1)
  end.

#[global] Instance M_throw : MThrow exn M := λ A e w, (Raise e, [], w).

(** [try: body / except <class>: handler]: the handler runs when the body
    raises an exception that [catches] accepts. *)
Definition try_except {A} (body : M A) (catches : exn → bool) (handler : exn → M A) : M A :=
  λ w,
    match body w with
    | (Ok a, evs, w1) => (Ok a, evs, w1)
    | (Raise e, evs, w1) =>
        if catches e then
          match handler e w1 with
          | (r, evs', w2) => (r, evs ++ evs', w2)
          end
        else (Raise e, evs, w1)
    end.

(** [try: body / finally: cleanup]: the cleanup runs whatever the body did;
    an exception of the cleanup replaces the body's outcome. *)
Definition try_finally {A} (body : M A) (cleanup : M unit) : M A :=
  λ w,
    match body w with
    | (r, evs, w1) =>
        match cleanup w1 with
        | (Ok _, evs', w2) => (r, evs ++ evs', w2)
        | (Raise e, evs', w2) => (Raise e, evs ++ evs', w2)
        end
    end.

Definition is_OSError (e : exn) : bool :=
  match e with OSError _ => true | _ => false end.

(** [except Exception] catches every exception of the model. *)
Definition is_Exception (e : exn) : bool := true.

Definition emit (ev : event) : M unit := λ w, (Ok tt, [ev], w).

(** [print] of the builtins. *)
Definition print (line : string) : M unit := emit (EvPrint line).

Definition ETIMEDOUT : Z := 110.

(** ** The platform's [socket] module *)

Module socket.

(** The attempt in force: the one of the latest address resolution. *)
Definition current (w : world) : attempt := net w (Nat.pred (calls w)).

(** [socket.getaddrinfo(host, port)[0][-1]] *)
Definition getaddrinfo (host : string) (port : Z) : M sockaddr := λ w,
  let w1 := {| net := net w; calls := S (calls w);
               next_fd := next_fd w; open_fds := open_fds w |} in
  match net w (calls w) with
  | Unresolved => (Raise (OSError (-2)), [EvGetaddrinfo host port], w1)
  | _ => (Ok (host, port), [EvGetaddrinfo host port], w1)
  end.

(** [socket.socket(socket.AF_INET, socket.SOCK_DGRAM)] *)
Definition socket : M nat := λ w,
  let fd := next_fd w in
  (Ok fd, [EvSocket fd],
   {| net := net w; calls := calls w;
      next_fd := S fd; open_fds := {[fd]} ∪ open_fds w |}).

Definition settimeout (s : nat) (secs : Z) : M unit := emit (EvSettimeout s secs).

Definition sendto (s : nat) (msg : list byte) (addr : sockaddr) : M unit := λ w,
  match current w with
  | SendError errno => (Raise (OSError errno), [EvSendto s msg addr], w)
  | _ => (Ok tt, [EvSendto s msg addr], w)
  end.

(** [s.recv(bufsize)]: at most [bufsize] bytes of the datagram. *)
Definition recv (s : nat) (bufsize : nat) : M (list byte) := λ w,
  match current w with
  | Reply datagram => (Ok (take bufsize datagram), [EvRecv s bufsize], w)
  | RecvError errno => (Raise (OSError errno), [EvRecv s bufsize], w)
  | _ => (Raise (OSError ETIMEDOUT), [EvRecv s bufsize], w)
  end.

Definition close (s : nat) : M unit := λ w,
  (Ok tt, [EvClose s],
   {| net := net w; calls := calls w;
      next_fd := next_fd w; open_fds := open_fds w ∖ {[s]} |}).

End socket.

(** ** The platform's [struct] module *)

Module struct.

Definition byte_val (b : byte) : Z := Z.of_N (Byte.to_N b).

(** [struct.unpack("!I", buf)[0]]: a big-endian unsigned 32-bit integer;
    a buffer that does not hold four bytes is refused. *)
Definition unpack_I (buf : list byte) : M Z :=
  match buf with
  | [b0; b1; b2; b3] =>
      mret (Z.lor (Z.shiftl (byte_val b0) 24)
             (Z.lor (Z.shiftl (byte_val b1) 16)
                (Z.lor (Z.shiftl (byte_val b2) 8) (byte_val b3))))
  | _ => mthrow (ValueError "buffer too small")
  end.

End struct.

(** ** The platform's [machine] module *)

Module machine.

(** [machine.RTC().datetime(tm)] *)
Definition RTC_datetime (tm : list Z) : M unit := emit (EvRtcDatetime tm).

End machine.

(** ** [get_ntp_time] *)

(** Python's [msg[i:j]] on bytes. *)
Definition slice {A} (l : list A) (i j : nat) : list A := take (j - i) (drop i l).

Definition NTP_QUERY : list byte := Byte.x1b :: replicate 47 Byte.x00.

Definition get_ntp_time (host : string) : M (option struct_time) :=
  addr ← try_except (socket.getaddrinfo host 123) is_OSError
           (λ _, mthrow (RuntimeError "You must be connected to a network to use this function."));
  s ← socket.socket;
  socket.settimeout s 2;;
  let msg := NTP_QUERY in
  r ← try_finally
        (try_except
           (socket.sendto s msg addr;;
            msg ← socket.recv s 48;
            mret (Some msg))
           is_Exception
           (λ _, mret None))
        (socket.close s);
  match r with
  | None => mret None
  | Some msg =>
      val ← struct.unpack_I (slice msg 40 44);
      let t := val - NTP_DELTA in
      mret (Some (time.gmtime t))
  end.

(** ** [set_local_time] *)

(** A timestamp as the tuple it is in Python. *)
Definition as_tuple (t : struct_time) : list Z :=
  [tm_year t; tm_mon t; tm_mday t; tm_hour t; tm_min t; tm_sec t; tm_wday t; tm_yday t].

Definition UNSUPPORTED_MSG : string :=
  "Unsupported timezone name (Supported are: US/Eastern, US/Central, US/Mountain, US/Pacific".

(** The [while retries < 10] loop.  It carries the two variables the loop
    assigns, [retries] and [utc_time], and gives back [utc_time] as it is
    when the loop is left, by [break] or by its condition. *)
Equations? ntp_retry (retries : Z) (utc_time : option struct_time) :
    M (option struct_time) by wf (Z.to_nat (10 - retries)) lt :=
  ntp_retry retries utc_time with Z_lt_dec retries 10 => {
    | right _ := mret utc_time;
    | left _ :=
        utc_time ← get_ntp_time NTP_HOST;
        match utc_time with
        | None =>
            print "Failed to get NTP time. Retrying...";;
            ntp_retry (retries + 1) None
        | Some _ =>
            (if 0 <? retries
             then print "Successfully retrieved NTP time on retry."
             else mret tt);;
            mret utc_time
        end }.
Proof. lia. Qed.

Definition set_local_time (tz_name : string) : M struct_time :=
  match TIMEZONES !! tz_name with
  | None => mthrow (ValueError UNSUPPORTED_MSG)
  | Some tz_offset =>
      let retries := 0 in
      (* [utc_time] is unbound here; the loop body runs at least once and
         assigns it before it is read *)
      utc_time ← ntp_retry retries None;
      match utc_time with
      | None => mthrow (RuntimeError "Failed to get NTP time")
      | Some utc_time =>
          let local_time := utc_to_local utc_time tz_offset in
          let tm := take 3 (as_tuple local_time) ++ [0]
                    ++ slice (as_tuple local_time) 3 6 ++ [0] in
          machine.RTC_datetime tm;;
          mret local_time
      end
  end.

(** ** Vocabulary of the properties

    Nothing below is part of the program: these definitions name what the
    properties talk about. *)

(** Weekday of a calendar day, the way [is_dst] asks for it: through
    [mktime] at midnight and [localtime]. *)
Definition weekday_of (y m d : Z) : Z :=
  tm_wday (time.localtime (time.mktime (mk_time y m d 0 0 0 0 0))).

(** Sakamoto's day-of-week formula, 0 = Sunday: an independent check of the
    weekday that [localtime] gives. *)
Definition sakamoto (y m d : Z) : Z :=
  let t := nth (Z.to_nat (m - 1)) [0; 3; 2; 5; 0; 3; 5; 1; 4; 6; 2; 4] 0 in
  let y := if m <? 3 then y - 1 else y in
  (y + y / 4 - y / 100 + y / 400 + t + d) mod 7.

(** A timestamp as [localtime] gives them. *)
Definition well_formed (t : struct_time) : Prop :=
  1 <= tm_mon t <= 12
  ∧ 1 <= tm_mday t <= time.days_in_month (tm_year t) (tm_mon t)
  ∧ 0 <= tm_hour t <= 23 ∧ 0 <= tm_min t <= 59 ∧ 0 <= tm_sec t <= 59
  ∧ 0 <= tm_wday t <= 6.

(** The Gregorian calendar repeats every 400 years, that is every 146097
    days; [day_checks] is what is checked of each day of one cycle. *)
Definition shift_years (k : Z) (ymd : Z * Z * Z) : Z * Z * Z :=
  let '(y, m, d) := ymd in (y + 400 * k, m, d).

Definition valid_date (ymd : Z * Z * Z) : bool :=
  let '(y, m, d) := ymd in
  (1 <=? m) && (m <=? 12) && (1 <=? d) && (d <=? time.days_in_month y m).

Definition ord_of (ymd : Z * Z * Z) : Z :=
  let '(y, m, d) := ymd in time.ymd_to_ord y m d.

Definition day_checks (ord : Z) : bool :=
  valid_date (time.ord_to_ymd ord) && (ord_of (time.ord_to_ymd ord) =? ord).

Fixpoint check_from (f : Z → bool) (z : Z) (n : nat) : bool :=
  match n with
  | O => true
  | S n' => f z && check_from f (z + 1) n'
  end.

(** The three parts of a run. *)
Definition outcome {A} (x : result A * list event * world) : result A := x.1.1.
Definition events {A} (x : result A * list event * world) : list event := x.1.2.
Definition world_after {A} (x : result A * list event * world) : world := x.2.

Definition is_getaddrinfo (e : event) : bool :=
  match e with EvGetaddrinfo _ _ => true | _ => false end.

Definition is_rtc (e : event) : bool :=
  match e with EvRtcDatetime _ => true | _ => false end.

Definition is_print (line : string) (e : event) : bool :=
  match e with EvPrint l => bool_decide (l = line) | _ => false end.

(** Number of events that [p] accepts. *)
Definition count (p : event → bool) (evs : list event) : nat :=
  length (List.filter p evs).

Definition FAILURE_NOTICE : string := "Failed to get NTP time. Retrying...".
Definition RECOVERY_NOTICE : string := "Successfully retrieved NTP time on retry.".
Definition NETWORK_MSG : string := "You must be connected to a network to use this function.".
Definition SYNC_FAILED_MSG : string := "Failed to get NTP time".

(** [name] occurs in [msg]. *)
Definition mentions (msg name : string) : bool :=
  match String.index 0 name msg with Some _ => true | None => false end.

(** The world after the address resolution of a call. *)
Definition resolved (w : world) : world :=
  {| net := net w; calls := S (calls w); next_fd := next_fd w; open_fds := open_fds w |}.

(** The world after a call that opened its socket and closed it. *)
Definition exchanged (w : world) : world :=
  {| net := net w; calls := S (calls w); next_fd := S (next_fd w);
     open_fds := ({[next_fd w]} ∪ open_fds w) ∖ {[next_fd w]} |}.

(** What [get_ntp_time] makes of the bytes that [recv] gave. *)
Definition parse_reply (msg : list byte) : result (option struct_time) :=
  match slice msg 40 44 with
  | [b0; b1; b2; b3] =>
      Ok (Some (time.gmtime
        (Z.lor (Z.shiftl (struct.byte_val b0) 24)
           (Z.lor (Z.shiftl (struct.byte_val b1) 16)
              (Z.lor (Z.shiftl (struct.byte_val b2) 8) (struct.byte_val b3)))
         - NTP_DELTA)))
  | _ => Raise (ValueError "buffer too small")
  end.

(** What [get_ntp_time] returns when the network does [a]. *)
Definition answer (a : attempt) : result (option struct_time) :=
  outcome (run (get_ntp_time NTP_HOST)
             {| net := λ _, a; calls := 0; next_fd := 0; open_fds := ∅ |}).

(** The tuple handed to the device clock for a local timestamp. *)
Definition rtc_tuple (t : struct_time) : list Z :=
  [tm_year t; tm_mon t; tm_mday t; 0; tm_hour t; tm_min t; tm_sec t; 0].

(** A datagram of 48 bytes whose transmit timestamp is 3919068160, that is
    2024-03-10 14:02:40 UTC. *)
Definition sample_reply : list byte :=
  replicate 40 Byte.x00 ++ [Byte.xe9; Byte.x98; Byte.x3c; Byte.x00]
  ++ replicate 4 Byte.x00.

(** A network that times out twice and replies from then on. *)
Definition flaky_world : world :=
  {| net := λ k, match k with
                 | O | S O => RecvTimeout
                 | _ => Reply sample_reply
                 end;
     calls := 0; next_fd := 3; open_fds := ∅ |}.

(** A reply of four bytes. *)
Definition short_reply : list byte := [Byte.x1c; Byte.x01; Byte.x00; Byte.x00].

Definition short_reply_world : world :=
  {| net := λ _, Reply short_reply; calls := 0; next_fd := 3; open_fds := ∅ |}.

(** ** Further vocabulary *)

(** The instants, on the local clock, at which [is_dst] switches on and off
    in a year: 02:00 of the computed start day and of the computed end
    day. *)
Definition dst_start_instant (year : Z) : Z :=
  time.mktime (mk_time year 3 (dst_start_day year) 2 0 0 0 0).

Definition dst_end_instant (year : Z) : Z :=
  time.mktime (mk_time year 11 (dst_end_day year) 2 0 0 0 0).

(** The hour that the local clock skips when DST starts: 02:00 to 02:59 of
    the start day. *)
Definition in_skipped_hour (t : struct_time) : bool :=
  (tm_mon t =? 3) && (tm_mday t =? dst_start_day (tm_year t)) && (tm_hour t =? 2).

(** The byte of a number below 256, and the four bytes of a number below
    2^32, most significant first: the way a time server writes the seconds
    of its transmit timestamp at offset 40 of the reply. *)
Definition byte_of (z : Z) : byte := default Byte.x00 (Byte.of_N (Z.to_N z)).

Definition be32_bytes (v : Z) : list byte :=
  [byte_of (v / 16777216 mod 256); byte_of (v / 65536 mod 256);
   byte_of (v / 256 mod 256); byte_of (v mod 256)].

Definition is_socket (e : event) : bool :=
  match e with EvSocket _ => true | _ => false end.

Definition is_close (e : event) : bool :=
  match e with EvClose _ => true | _ => false end.

Definition is_sendto (e : event) : bool :=
  match e with EvSendto _ _ _ => true | _ => false end.

(** Every open socket was handed out before: the next descriptor is new. *)
Definition fds_fresh (w : world) : Prop :=
  ∀ fd, fd ∈ open_fds w → (fd < next_fd w)%nat.

(** A network that replies at once. *)
Definition prompt_world : world :=
  {| net := λ _, Reply sample_reply; calls := 0; next_fd := 3; open_fds := ∅ |}.

(** A network that times out once and cannot resolve the host after
    that. *)
Definition unplugged_world : world :=
  {| net := λ k, match k with O => RecvTimeout | _ => Unresolved end;
     calls := 0; next_fd := 3; open_fds := ∅ |}.

(** * Properties *)

(** ** The calendar *)

Section Calendar.

Import time.

Lemma localtime_wday secs :
  tm_wday (localtime secs) = (secs / 86400 + EPOCH_ORD + 6) mod 7.
Proof.
  unfold localtime. destruct (ord_to_ymd _) as [[y m] d]. reflexivity.
Qed.

Lemma weekday_of_ord y m d : weekday_of y m d = (ymd_to_ord y m d + 6) mod 7.
Proof.
  unfold weekday_of. rewrite localtime_wday. unfold mktime. cbn [tm_year tm_mon tm_mday tm_hour tm_min tm_sec].
  replace ((ymd_to_ord y m d - EPOCH_ORD) * 86400 + 0 * 3600 + 0 * 60 + 0)
    with ((ymd_to_ord y m d - EPOCH_ORD) * 86400) by lia.
  rewrite Z.div_mul by lia. f_equal. lia.
Qed.

Lemma weekday_of_range y m d : 0 <= weekday_of y m d <= 6.
Proof.
  rewrite weekday_of_ord.
  pose proof (Z.mod_pos_bound (ymd_to_ord y m d + 6) 7). lia.
Qed.

(** Moving [k] days on within the month moves the weekday on by [k]. *)
Lemma weekday_of_shift y m d k :
  weekday_of y m (d + k) = (weekday_of y m d + k) mod 7.
Proof.
  rewrite !weekday_of_ord. unfold ymd_to_ord.
  rewrite Zplus_mod_idemp_l. f_equal. lia.
Qed.

(** *** [localtime] inverts into [mktime]

    The Gregorian calendar repeats every 400 years, that is every 146097
    days; within one cycle the conversions are checked day by day. *)

Lemma is_leap_period y k : is_leap (y + 400 * k) = is_leap y.
Proof.
  unfold is_leap.
  replace (y + 400 * k) with (y + (100 * k) * 4) at 1 by lia.
  replace (y + 400 * k) with (y + (4 * k) * 100) at 1 by lia.
  replace (y + 400 * k) with (y + k * 400) by lia.
  rewrite !Z_mod_plus_full. reflexivity.
Qed.

Lemma days_before_year_period y k :
  days_before_year (y + 400 * k) = days_before_year y + 146097 * k.
Proof. unfold days_before_year. cbv zeta. Z.div_mod_to_equations. lia. Qed.

Lemma days_before_month_period y m k :
  days_before_month (y + 400 * k) m = days_before_month y m.
Proof. unfold days_before_month. rewrite is_leap_period. reflexivity. Qed.

Lemma days_in_month_period y m k :
  days_in_month (y + 400 * k) m = days_in_month y m.
Proof. unfold days_in_month. rewrite is_leap_period. reflexivity. Qed.

Lemma ymd_to_ord_period y m d k :
  ymd_to_ord (y + 400 * k) m d = ymd_to_ord y m d + 146097 * k.
Proof.
  unfold ymd_to_ord. rewrite days_before_year_period, days_before_month_period. lia.
Qed.

Lemma ord_to_ymd_period ord k :
  ord_to_ymd (ord + 146097 * k) = shift_years k (ord_to_ymd ord).
Proof.
  unfold ord_to_ymd. cbv zeta.
  replace (ord + 146097 * k - 1) with (ord - 1 + k * 146097) by lia.
  rewrite Z.div_add by lia. rewrite Z_mod_plus_full.
  set (n := (ord - 1) mod 146097).
  set (n400 := (ord - 1) / 146097).
  set (rest := n / 36524 * 100 + n mod 36524 / 1461 * 4 + n mod 36524 mod 1461 / 365).
  replace ((n400 + k) * 400 + 1 + n / 36524 * 100 + n mod 36524 / 1461 * 4
           + n mod 36524 mod 1461 / 365)
    with (n400 * 400 + 1 + rest + 400 * k) by (unfold rest; lia).
  replace (n400 * 400 + 1 + n / 36524 * 100 + n mod 36524 / 1461 * 4
           + n mod 36524 mod 1461 / 365)
    with (n400 * 400 + 1 + rest) by (unfold rest; lia).
  rewrite !days_before_month_period.
  destruct (_ || _); [unfold shift_years; f_equal; f_equal; lia|].
  destruct (_ >? _); reflexivity.
Qed.

Lemma check_from_spec f n : ∀ z,
  check_from f z n = true → ∀ r, z <= r < z + Z.of_nat n → f r = true.
Proof.
  induction n as [|n IH]; intros z Hc r Hr; [lia|].
  simpl in Hc. apply andb_true_iff in Hc as [Hz Hc].
  destruct (Z.eq_dec r z) as [->|Hne]; [exact Hz|].
  apply (IH (z + 1) Hc). lia.
Qed.

Lemma one_cycle_checks : check_from day_checks 1 (Z.to_nat 146097) = true.
Proof. vm_cast_no_check (@eq_refl bool true). Qed.

Lemma day_checks_all ord : day_checks ord = true.
Proof.
  set (k := (ord - 1) / 146097).
  set (r := (ord - 1) mod 146097 + 1).
  assert (Hord : ord = r + 146097 * k).
  { unfold r, k. pose proof (Z.div_mod (ord - 1) 146097). lia. }
  assert (Hr : day_checks r = true).
  { apply (check_from_spec _ _ _ one_cycle_checks).
    unfold r. pose proof (Z.mod_pos_bound (ord - 1) 146097). lia. }
  rewrite Hord. unfold day_checks in *. rewrite ord_to_ymd_period.
  destruct (ord_to_ymd r) as [[y m] d].
  unfold shift_years, valid_date, ord_of in *.
  rewrite days_in_month_period, ymd_to_ord_period.
  apply andb_true_iff in Hr as [Hv He]. rewrite Hv. simpl.
  apply Z.eqb_eq in He. apply Z.eqb_eq. lia.
Qed.

Lemma ord_to_ymd_inverse ord : ord_of (ord_to_ymd ord) = ord.
Proof.
  pose proof (day_checks_all ord) as H. unfold day_checks in H.
  apply andb_true_iff in H as [_ H]. apply Z.eqb_eq. exact H.
Qed.

(** [localtime] gives a well-formed timestamp. *)
Lemma localtime_well_formed secs : well_formed (localtime secs).
Proof.
  unfold well_formed, localtime.
  pose proof (day_checks_all (secs / 86400 + EPOCH_ORD)) as H.
  unfold day_checks in H. apply andb_true_iff in H as [H _].
  destruct (ord_to_ymd _) as [[y m] d]. unfold valid_date in H.
  cbn [tm_year tm_mon tm_mday tm_hour tm_min tm_sec tm_wday].
  pose proof (Z.mod_pos_bound secs 86400).
  pose proof (Z.mod_pos_bound (secs / 86400 + EPOCH_ORD + 6) 7).
  repeat split; try lia; try (Z.div_mod_to_equations; lia).
Qed.

(** The epoch instant of [localtime secs] is [secs]. *)
Lemma mktime_localtime secs : mktime (localtime secs) = secs.
Proof.
  unfold localtime, mktime.
  pose proof (ord_to_ymd_inverse (secs / 86400 + EPOCH_ORD)) as H.
  destruct (ord_to_ymd _) as [[y m] d]. unfold ord_of in H.
  cbn [tm_year tm_mon tm_mday tm_hour tm_min tm_sec]. rewrite H.
  Z.div_mod_to_equations. lia.
Qed.

(** *** The weekday, checked against Sakamoto's formula *)

Lemma leap_days_step y :
  y / 4 - y / 100 + y / 400
  = (y - 1) / 4 - (y - 1) / 100 + (y - 1) / 400 + (if is_leap y then 1 else 0).
Proof.
  unfold is_leap.
  destruct (Z.eqb_spec (y mod 4) 0), (Z.eqb_spec (y mod 100) 0),
    (Z.eqb_spec (y mod 400) 0); cbn [andb orb negb];
    Z.div_mod_to_equations; lia.
Qed.

Lemma mod7_eq a b : (a - b) mod 7 = 0 → a mod 7 = b mod 7.
Proof.
  intros H. replace a with (b + (a - b) / 7 * 7).
  - apply Z_mod_plus_full.
  - pose proof (Z.div_mod (a - b) 7). lia.
Qed.

(** On every day of the calendar the weekday of [localtime], 0 = Monday, is
    the weekday of the formula, 0 = Sunday, moved by one. *)
Lemma weekday_of_sakamoto y m d :
  1 <= m <= 12 → weekday_of y m d = (sakamoto y m d + 6) mod 7.
Proof.
  intros Hm. rewrite weekday_of_ord. unfold sakamoto. cbv zeta.
  rewrite Zplus_mod_idemp_l.
  unfold ymd_to_ord, days_before_year, days_before_month. cbv zeta.
  assert (Hcases : m = 1 ∨ m = 2 ∨ m = 3 ∨ m = 4 ∨ m = 5 ∨ m = 6 ∨ m = 7
                   ∨ m = 8 ∨ m = 9 ∨ m = 10 ∨ m = 11 ∨ m = 12) by lia.
  destruct Hcases as [->|[->|[->|[->|[->|[->|[->|[->|[->|[->|[->| ->]]]]]]]]]]];
    simpl (nth _ _ _);
    repeat match goal with
      | |- context [if ?c then _ else _] =>
          lazymatch c with
          | is_leap _ => fail
          | _ => let v := eval vm_compute in c in change c with v; cbv iota
          end
      end;
    generalize (leap_days_step y);
    destruct (is_leap y); intros Hstep;
    apply mod7_eq;
    revert Hstep;
    generalize ((y - 1) / 4) ((y - 1) / 100) ((y - 1) / 400) (y / 4) (y / 100) (y / 400);
    intros p4 p100 p400 q4 q100 q400 Hstep;
    Z.div_mod_to_equations; lia.
Qed.

End Calendar.

(** ** The DST boundary days *)

Lemma march1_wday_eq year : march1_wday year = weekday_of year 3 1.
Proof. unfold march1_wday, weekday_of. exact eq_refl. Qed.

Lemma nov1_wday_eq year : nov1_wday year = weekday_of year 11 1.
Proof. unfold nov1_wday, weekday_of. exact eq_refl. Qed.

(** The [else] branch of the start-day formula is dead: the weekday is at
    most 6. *)
Lemma dst_start_day_eq year : dst_start_day year = 14 - weekday_of year 3 1.
Proof.
  unfold dst_start_day. rewrite march1_wday_eq.
  pose proof (weekday_of_range year 3 1).
  destruct (Z.leb_spec (weekday_of year 3 1) 6); lia.
Qed.

(** X1: for every year the start day is the second Sunday of March: it lies
    in the second week and its weekday is 6. *)
Lemma dst_start_day_second_sunday year :
  8 <= dst_start_day year <= 14 ∧ weekday_of year 3 (dst_start_day year) = 6.
Proof.
  rewrite dst_start_day_eq.
  pose proof (weekday_of_range year 3 1) as Hr. split; [lia|].
  replace (14 - weekday_of year 3 1) with (1 + (13 - weekday_of year 3 1)) by lia.
  rewrite weekday_of_shift.
  replace (weekday_of year 3 1 + (13 - weekday_of year 3 1)) with 13 by lia.
  reflexivity.
Qed.

(** X2: for every year the end day lies in the first week of November, and
    its weekday is 0: it is the first Monday, not the first Sunday. *)
Lemma dst_end_day_first_monday year :
  1 <= dst_end_day year <= 7 ∧ weekday_of year 11 (dst_end_day year) = 0.
Proof.
  unfold dst_end_day. rewrite nov1_wday_eq.
  pose proof (weekday_of_range year 11 1) as Hr.
  pose proof (Z.mod_pos_bound (7 - weekday_of year 11 1) 7) as Hm.
  split; [lia|].
  rewrite weekday_of_shift.
  rewrite Zplus_mod_idemp_r.
  replace (weekday_of year 11 1 + (7 - weekday_of year 11 1)) with 7 by lia.
  reflexivity.
Qed.

(** The first Sunday of November is the day before the computed end day,
    or six days after it when November starts on a Monday. *)
Lemma first_sunday_of_november year :
  let first_sunday := 7 - weekday_of year 11 1 in
  1 <= first_sunday <= 7
  ∧ weekday_of year 11 first_sunday = 6
  ∧ dst_end_day year = (if weekday_of year 11 1 =? 0 then first_sunday - 6 else first_sunday + 1).
Proof.
  cbv zeta.
  pose proof (weekday_of_range year 11 1) as Hr.
  split; [lia|]. split.
  - replace (7 - weekday_of year 11 1) with (1 + (6 - weekday_of year 11 1)) by lia.
    rewrite weekday_of_shift.
    replace (weekday_of year 11 1 + (6 - weekday_of year 11 1)) with 6 by lia.
    reflexivity.
  - unfold dst_end_day. rewrite nov1_wday_eq.
    destruct (Z.eqb_spec (weekday_of year 11 1) 0) as [-> | Hne]; [reflexivity|].
    rewrite Z.mod_small by lia. lia.
Qed.

(** C1, at the year 2024: the second Sunday of March is computed right
    (March 10th, weekday 6), but the day computed for the first Sunday of
    November is November 4th, a Monday (weekday 0, and 1 by the formula
    that counts from Sunday); the first Sunday of November 2024 is the 3rd,
    and at noon of that day [is_dst] still answers true. *)
Theorem dst_end_day_2024_is_a_monday :
  dst_start_day 2024 = 10 ∧ weekday_of 2024 3 10 = 6
  ∧ nov1_wday 2024 = 4
  ∧ dst_end_day 2024 = 4 ∧ weekday_of 2024 11 4 = 0 ∧ sakamoto 2024 11 4 = 1
  ∧ weekday_of 2024 11 3 = 6 ∧ sakamoto 2024 11 3 = 0
  ∧ is_dst (mk_time 2024 11 3 12 0 0 6 308) = true.
Proof. vm_compute. repeat split. Qed.

(** ** The decision table of [is_dst] *)

(** C2: relative to the computed start day [S] and end day [E], [is_dst] is
    false outside March..November, true strictly inside, in March true
    exactly from 02:00 of day [S] on, and in November true exactly before
    02:00 of day [E]. *)
Theorem is_dst_decision_table (t : struct_time) :
  let S := dst_start_day (tm_year t) in
  let E := dst_end_day (tm_year t) in
  (tm_mon t < 3 ∨ tm_mon t > 11 → is_dst t = false)
  ∧ (3 < tm_mon t < 11 → is_dst t = true)
  ∧ (tm_mon t = 3 →
     (is_dst t = true ↔ tm_mday t > S ∨ (tm_mday t = S ∧ tm_hour t >= 2)))
  ∧ (tm_mon t = 11 →
     (is_dst t = true ↔ tm_mday t < E ∨ (tm_mday t = E ∧ tm_hour t < 2))).
Proof.
  cbv zeta. unfold is_dst.
  repeat split; intros.
  all: repeat match goal with
       | |- context [?a <? ?b] => destruct (Z.ltb_spec a b)
       | |- context [?a >? ?b] => rewrite (Z.gtb_ltb a b)
       | |- context [?a >=? ?b] => rewrite (Z.geb_leb a b)
       | |- context [?a <=? ?b] => destruct (Z.leb_spec a b)
       | |- context [?a =? ?b] => destruct (Z.eqb_spec a b)
       | H : context [?a <? ?b] |- _ => destruct (Z.ltb_spec a b)
       | H : context [?a >? ?b] |- _ => rewrite (Z.gtb_ltb a b) in H
       | H : context [?a >=? ?b] |- _ => rewrite (Z.geb_leb a b) in H
       | H : context [?a <=? ?b] |- _ => destruct (Z.leb_spec a b)
       | H : context [?a =? ?b] |- _ => destruct (Z.eqb_spec a b)
       end; simpl in *; try lia; try discriminate; try reflexivity.
Qed.

(** C10: [is_dst] reads the year, month, day and hour of its argument and
    nothing else. *)
Theorem is_dst_depends_on_ymdh (t1 t2 : struct_time) :
  tm_year t1 = tm_year t2 →
  tm_mon t1 = tm_mon t2 →
  tm_mday t1 = tm_mday t2 →
  tm_hour t1 = tm_hour t2 →
  is_dst t1 = is_dst t2.
Proof.
  intros Hy Hm Hd Hh. unfold is_dst. rewrite Hy, Hm, Hd, Hh. reflexivity.
Qed.

Lemma is_dst_depends_on_ymdh_witness :
  is_dst (mk_time 2024 7 4 12 0 0 3 186) = is_dst (mk_time 2024 7 4 12 59 59 0 1).
Proof.
  apply (is_dst_depends_on_ymdh (mk_time 2024 7 4 12 0 0 3 186) (mk_time 2024 7 4 12 59 59 0 1));
    reflexivity.
Defined.

(** ** [utc_to_local] *)

(** C3: the result is the timestamp of the UTC epoch instant plus the zone
    offset plus [d], where [d] is one hour when [is_dst] holds of the local
    timestamp before any DST shift, and zero otherwise; the epoch instant of
    the result is that sum exactly.  [is_dst] is asked once, about the
    probe. *)
Theorem utc_to_local_one_shot (u : struct_time) (off : Z) :
  let probe := time.localtime (time.mktime u + off * 3600) in
  let d := if is_dst probe then 3600 else 0 in
  utc_to_local u off = time.localtime (time.mktime u + off * 3600 + d)
  ∧ time.mktime (utc_to_local u off) = time.mktime u + off * 3600 + d.
Proof.
  cbv zeta. unfold utc_to_local.
  destruct (is_dst (time.localtime (time.mktime u + off * 3600))).
  - split; [reflexivity | apply mktime_localtime].
  - rewrite Z.add_0_r. split; [reflexivity | apply mktime_localtime].
Qed.

(** The correction is not iterated: half an hour before the end of DST as
    [is_dst] has it, the probe is in DST, the shifted result is not, and
    the result stays shifted. *)
Example utc_to_local_not_a_fixed_point :
  let u := mk_time 2024 11 4 6 30 0 0 309 in
  is_dst (time.localtime (time.mktime u + (-5) * 3600)) = true
  ∧ utc_to_local u (-5) = mk_time 2024 11 4 2 30 0 0 309
  ∧ is_dst (utc_to_local u (-5)) = false.
Proof. vm_compute. repeat split. Qed.

(** C4: UTC 2024-03-10 08:00:00 in US/Eastern, whatever the weekday and
    yearday fields of the input say.  The offset is -5; the local standard
    time 03:00 of March 10th, the computed start day, is in DST; the result
    is 2024-03-10 04:00:00 (a Sunday, day 70 of the year). *)
Theorem utc_to_local_2024_03_10_eastern (wday yday : Z) :
  let u := mk_time 2024 3 10 8 0 0 wday yday in
  TIMEZONES !! "US/Eastern" = Some (-5)
  ∧ dst_start_day 2024 = 10
  ∧ time.localtime (time.mktime u + (-5) * 3600) = mk_time 2024 3 10 3 0 0 6 70
  ∧ is_dst (time.localtime (time.mktime u + (-5) * 3600)) = true
  ∧ utc_to_local u (-5) = mk_time 2024 3 10 4 0 0 6 70.
Proof.
  cbv zeta. unfold utc_to_local, time.mktime.
  cbn [tm_year tm_mon tm_mday tm_hour tm_min tm_sec].
  vm_compute. repeat split.
Qed.

(** ** Runs of effectful computations *)

Lemma count_app p evs1 evs2 : count p (evs1 ++ evs2) = (count p evs1 + count p evs2)%nat.
Proof. unfold count. rewrite List.filter_app, length_app. reflexivity. Qed.

Lemma count_cons p e evs :
  count p (e :: evs) = ((if p e then 1 else 0) + count p evs)%nat.
Proof. unfold count. cbn. destruct (p e); reflexivity. Qed.

Lemma bind_run {A B} (m : M A) (f : A → M B) (w : world) :
  (m ≫= f) w =
  match m w with
  | (Ok a, evs, w1) => let '(r, evs', w2) := f a w1 in (r, evs ++ evs', w2)
  | (Raise e, evs, w1) => (Raise e, evs, w1)
  end.
Proof. reflexivity. Qed.

(** ** [get_ntp_time], case by case *)

Lemma get_ntp_time_cases host w :
  get_ntp_time host w =
  let fd := next_fd w in
  let opening := [EvGetaddrinfo host 123; EvSocket fd; EvSettimeout fd 2;
                  EvSendto fd NTP_QUERY (host, 123)] in
  match net w (calls w) with
  | Unresolved => (Raise (RuntimeError NETWORK_MSG), [EvGetaddrinfo host 123], resolved w)
  | SendError _ => (Ok None, opening ++ [EvClose fd], exchanged w)
  | RecvTimeout | RecvError _ => (Ok None, opening ++ [EvRecv fd 48; EvClose fd], exchanged w)
  | Reply datagram =>
      (parse_reply (take 48 datagram), opening ++ [EvRecv fd 48; EvClose fd], exchanged w)
  end.
Proof.
  unfold get_ntp_time, parse_reply, struct.unpack_I.
  unfold mbind, M_bind, mret, M_ret, mthrow, M_throw, try_finally, try_except,
    socket.getaddrinfo, socket.socket, socket.settimeout, socket.sendto,
    socket.recv, socket.close, emit, socket.current.
  destruct (net w (calls w)) as [|errno| |errno|datagram] eqn:Hnet;
    repeat (progress (cbn -[slice take NTP_QUERY]; rewrite ?Hnet)); try reflexivity.
  destruct (slice (take 48 datagram) 40 44) as [|b0 [|b1 [|b2 [|b3 [|b4 rest]]]]];
    reflexivity.
Qed.

Lemma get_ntp_time_outcome host w :
  outcome (get_ntp_time host w) = answer (net w (calls w)).
Proof.
  unfold answer, run. rewrite !get_ntp_time_cases. cbn [net calls].
  destruct (net w (calls w)); reflexivity.
Qed.

(** Every call resolves the address once, prints nothing, leaves the clock
    alone and moves on to the next attempt of the network. *)
Lemma get_ntp_time_effects host w :
  let x := get_ntp_time host w in
  count is_getaddrinfo (events x) = 1%nat
  ∧ count is_rtc (events x) = 0%nat
  ∧ (∀ line, count (is_print line) (events x) = 0%nat)
  ∧ calls (world_after x) = S (calls w)
  ∧ net (world_after x) = net w.
Proof.
  cbv zeta. rewrite get_ntp_time_cases.
  destruct (net w (calls w)); repeat split.
Qed.

(** The loop, one iteration unfolded. *)
Lemma ntp_retry_step retries utc_time :
  ntp_retry retries utc_time =
  if Z_lt_dec retries 10 then
    utc_time' ← get_ntp_time NTP_HOST;
    match utc_time' with
    | None => print FAILURE_NOTICE;; ntp_retry (retries + 1) None
    | Some _ =>
        (if 0 <? retries then print RECOVERY_NOTICE else mret tt);;
        mret utc_time'
    end
  else mret utc_time.
Proof.
  rewrite ntp_retry_equation_1.
  destruct (Z_lt_dec retries 10); simp ntp_retry; reflexivity.
Qed.

Lemma ntp_retry_exit retries utc_time w :
  ¬ retries < 10 → ntp_retry retries utc_time w = (Ok utc_time, [], w).
Proof.
  intros Hge. rewrite ntp_retry_step.
  destruct (Z_lt_dec retries 10); [contradiction | reflexivity].
Qed.

(** One iteration, by what the time source returned. *)
Lemma ntp_retry_iter retries utc_time w :
  retries < 10 →
  ntp_retry retries utc_time w =
  match get_ntp_time NTP_HOST w with
  | (Raise e, evs, w1) => (Raise e, evs, w1)
  | (Ok None, evs, w1) =>
      let '(r, evs', w2) := ntp_retry (retries + 1) None w1 in
      (r, evs ++ EvPrint FAILURE_NOTICE :: evs', w2)
  | (Ok (Some t), evs, w1) =>
      (Ok (Some t), evs ++ (if 0 <? retries then [EvPrint RECOVERY_NOTICE] else []), w1)
  end.
Proof.
  intros Hlt. rewrite ntp_retry_step.
  destruct (Z_lt_dec retries 10); [|contradiction].
  rewrite bind_run.
  destruct (get_ntp_time NTP_HOST w) as [[[[t|]|e] evs] w1]; [| |reflexivity].
  - destruct (0 <? retries); reflexivity.
  - rewrite bind_run. unfold print, emit.
    destruct (ntp_retry (retries + 1) None w1) as [[r evs'] w2]. reflexivity.
Qed.

(** The value of [utc_time] before the loop is never observed when the
    loop is entered with attempts left, as it is from [set_local_time]. *)
Lemma ntp_retry_initial_value retries utc_time utc_time' w :
  retries < 10 → ntp_retry retries utc_time w = ntp_retry retries utc_time' w.
Proof.
  intros Hlt. rewrite !ntp_retry_iter by exact Hlt. reflexivity.
Qed.

(** ** The retry loop *)

(** The loop never touches the device clock. *)
Lemma ntp_retry_no_rtc (n : nat) : ∀ retries utc_time w,
  Z.to_nat (10 - retries) = n →
  count is_rtc (events (ntp_retry retries utc_time w)) = 0%nat.
Proof.
  induction n as [|n IH]; intros retries utc_time w Hn.
  - rewrite ntp_retry_exit by lia. reflexivity.
  - rewrite ntp_retry_iter by lia.
    destruct (get_ntp_time_effects NTP_HOST w) as (_ & Hrtc & _).
    destruct (get_ntp_time NTP_HOST w) as [[[[t|]|e] evs] w1]; unfold events in Hrtc; cbn [fst snd] in Hrtc.
    + unfold events; cbn [fst snd]. rewrite count_app, Hrtc.
      destruct (0 <? retries); reflexivity.
    + specialize (IH (retries + 1) None w1 ltac:(lia)).
      destruct (ntp_retry (retries + 1) None w1) as [[r evs'] w2].
      unfold events in *; cbn [fst snd] in *.
      rewrite count_app, Hrtc. exact IH.
    + exact Hrtc.
Qed.

(** [N] attempts without an answer, then one with the answer [utc]: the
    loop makes [N + 1] calls and leaves with [utc]. *)
Lemma ntp_retry_recovers (N : nat) : ∀ retries utc_time w utc,
  0 <= retries → retries + Z.of_nat N < 10 →
  (∀ i, (i < N)%nat → answer (net w (calls w + i)%nat) = Ok None) →
  answer (net w (calls w + N)%nat) = Ok (Some utc) →
  let x := ntp_retry retries utc_time w in
  outcome x = Ok (Some utc)
  ∧ calls (world_after x) = (calls w + N + 1)%nat
  ∧ count is_getaddrinfo (events x) = (N + 1)%nat
  ∧ count (is_print FAILURE_NOTICE) (events x) = N
  ∧ count (is_print RECOVERY_NOTICE) (events x)
    = (if 0 <? retries + Z.of_nat N then 1%nat else 0%nat).
Proof.
  induction N as [|N IH]; intros retries utc_time w utc Hge Hlt Hfail Hok; cbv zeta.
  - rewrite ntp_retry_iter by lia.
    rewrite Nat.add_0_r in Hok. rewrite <- (get_ntp_time_outcome NTP_HOST) in Hok.
    destruct (get_ntp_time_effects NTP_HOST w) as (Hga & _ & Hpr & Hcalls & _).
    destruct (get_ntp_time NTP_HOST w) as [[r evs] w1].
    unfold outcome, events, world_after in *; cbn [fst snd] in *. subst r. cbn [fst snd].
    rewrite !count_app, Hga, !Hpr, Z.add_0_r.
    repeat split; try lia; destruct (0 <? retries); reflexivity.
  - rewrite ntp_retry_iter by lia.
    pose proof (Hfail 0%nat ltac:(lia)) as H0.
    rewrite Nat.add_0_r in H0. rewrite <- (get_ntp_time_outcome NTP_HOST) in H0.
    destruct (get_ntp_time_effects NTP_HOST w) as (Hga & _ & Hpr & Hcalls & Hnet).
    destruct (get_ntp_time NTP_HOST w) as [[r evs] w1].
    unfold outcome, events, world_after in *; cbn [fst snd] in *. subst r. cbn [fst snd].
    specialize (IH (retries + 1) None w1 utc ltac:(lia) ltac:(lia)).
    rewrite Hnet, Hcalls in IH.
    destruct IH as (Ho & Hc & Hg & Hf & Hr).
    { intros i Hi. replace (S (calls w) + i)%nat with (calls w + S i)%nat by lia.
      apply Hfail. lia. }
    { replace (S (calls w) + N)%nat with (calls w + S N)%nat by lia. exact Hok. }
    destruct (ntp_retry (retries + 1) None w1) as [[r evs'] w2].
    unfold outcome, events, world_after in *; cbn [fst snd] in *.
    rewrite !count_app, !count_cons, Hga, !Hpr, Hg, Hf, Hr. cbn.
    replace (retries + 1 + Z.of_nat N) with (retries + Z.pos (Pos.of_succ_nat N)) by lia.
    repeat split; try assumption; lia.
Qed.

(** No answer on any of the attempts that are left: the loop uses them all
    up and leaves by its condition, with [utc_time] still [None]. *)
Lemma ntp_retry_exhausts (n : nat) : ∀ retries w,
  retries = 10 - Z.of_nat n → (n <= 10)%nat →
  (∀ i, (i < n)%nat → answer (net w (calls w + i)%nat) = Ok None) →
  let x := ntp_retry retries None w in
  outcome x = Ok None
  ∧ calls (world_after x) = (calls w + n)%nat
  ∧ count is_getaddrinfo (events x) = n
  ∧ count (is_print FAILURE_NOTICE) (events x) = n
  ∧ count (is_print RECOVERY_NOTICE) (events x) = 0%nat.
Proof.
  induction n as [|n IH]; intros retries w Hret Hle Hfail; cbv zeta.
  - rewrite ntp_retry_exit by lia. unfold outcome, events, world_after; cbn. repeat split; lia.
  - rewrite ntp_retry_iter by lia.
    pose proof (Hfail 0%nat ltac:(lia)) as H0.
    rewrite Nat.add_0_r in H0. rewrite <- (get_ntp_time_outcome NTP_HOST) in H0.
    destruct (get_ntp_time_effects NTP_HOST w) as (Hga & _ & Hpr & Hcalls & Hnet).
    destruct (get_ntp_time NTP_HOST w) as [[r evs] w1].
    unfold outcome, events, world_after in *; cbn [fst snd] in *. subst r. cbn [fst snd].
    specialize (IH (retries + 1) w1 ltac:(lia) ltac:(lia)).
    rewrite Hnet, Hcalls in IH.
    destruct IH as (Ho & Hc & Hg & Hf & Hr).
    { intros i Hi. replace (S (calls w) + i)%nat with (calls w + S i)%nat by lia.
      apply Hfail. lia. }
    destruct (ntp_retry (retries + 1) None w1) as [[r evs'] w2].
    unfold outcome, events, world_after in *; cbn [fst snd] in *.
    rewrite !count_app, !count_cons, Hga, !Hpr, Hg, Hf, Hr. cbn.
    repeat split; try assumption; lia.
Qed.

(** [N] attempts without an answer, then one on which the time source
    raises: the loop stops there with the exception. *)
Lemma ntp_retry_raises (N : nat) : ∀ retries utc_time w e,
  0 <= retries → retries + Z.of_nat N < 10 →
  (∀ i, (i < N)%nat → answer (net w (calls w + i)%nat) = Ok None) →
  answer (net w (calls w + N)%nat) = Raise e →
  let x := ntp_retry retries utc_time w in
  outcome x = Raise e
  ∧ calls (world_after x) = (calls w + N + 1)%nat
  ∧ count (is_print FAILURE_NOTICE) (events x) = N
  ∧ count (is_print RECOVERY_NOTICE) (events x) = 0%nat.
Proof.
  induction N as [|N IH]; intros retries utc_time w e Hge Hlt Hfail Hraise; cbv zeta.
  - rewrite ntp_retry_iter by lia.
    rewrite Nat.add_0_r in Hraise. rewrite <- (get_ntp_time_outcome NTP_HOST) in Hraise.
    destruct (get_ntp_time_effects NTP_HOST w) as (_ & _ & Hpr & Hcalls & _).
    destruct (get_ntp_time NTP_HOST w) as [[r evs] w1].
    unfold outcome, events, world_after in *; cbn [fst snd] in *. subst r.
    cbn [fst snd]. rewrite !Hpr. repeat split; lia.
  - rewrite ntp_retry_iter by lia.
    pose proof (Hfail 0%nat ltac:(lia)) as H0.
    rewrite Nat.add_0_r in H0. rewrite <- (get_ntp_time_outcome NTP_HOST) in H0.
    destruct (get_ntp_time_effects NTP_HOST w) as (_ & _ & Hpr & Hcalls & Hnet).
    destruct (get_ntp_time NTP_HOST w) as [[r evs] w1].
    unfold outcome, events, world_after in *; cbn [fst snd] in *. subst r.
    cbn [fst snd].
    specialize (IH (retries + 1) None w1 e ltac:(lia) ltac:(lia)).
    rewrite Hnet, Hcalls in IH.
    destruct IH as (Ho & Hc & Hf & Hr).
    { intros i Hi. replace (S (calls w) + i)%nat with (calls w + S i)%nat by lia.
      apply Hfail. lia. }
    { replace (S (calls w) + N)%nat with (calls w + S N)%nat by lia. exact Hraise. }
    destruct (ntp_retry (retries + 1) None w1) as [[r evs'] w2].
    unfold outcome, events, world_after in *; cbn [fst snd] in *.
    rewrite !count_app, !count_cons, !Hpr, Hf, Hr. cbn.
    repeat split; try assumption; lia.
Qed.

(** ** [set_local_time] *)

(** [set_local_time] for a supported zone, by how the loop ended. *)
Lemma set_local_time_supported tz off w :
  TIMEZONES !! tz = Some off →
  set_local_time tz w =
  match ntp_retry 0 None w with
  | (Ok (Some utc), evs, w1) =>
      (Ok (utc_to_local utc off),
       evs ++ [EvRtcDatetime (rtc_tuple (utc_to_local utc off))], w1)
  | (Ok None, evs, w1) => (Raise (RuntimeError SYNC_FAILED_MSG), evs ++ [], w1)
  | (Raise e, evs, w1) => (Raise e, evs, w1)
  end.
Proof.
  intros Htz. unfold set_local_time. rewrite Htz. cbv zeta. rewrite bind_run.
  destruct (ntp_retry 0 None w) as [[[[utc|]|e] evs] w1]; reflexivity.
Qed.

(** C5: when the time source gives no answer on the first [N] attempts and
    the answer [utc] on the next, with [N < 10], [set_local_time] calls it
    [N + 1] times, prints the recovery notice once (not at all when [N] is
    0) and gives the local time of [utc]; when the time source gives no
    answer ten times, [set_local_time] calls it ten times and raises the
    synchronisation failure. *)
Theorem set_local_time_retry_policy (tz : string) (off : Z) (w : world) :
  TIMEZONES !! tz = Some off →
  (∀ (N : nat) (utc : struct_time),
     (N < 10)%nat →
     (∀ i, (i < N)%nat → answer (net w (calls w + i)%nat) = Ok None) →
     answer (net w (calls w + N)%nat) = Ok (Some utc) →
     let x := run (set_local_time tz) w in
     outcome x = Ok (utc_to_local utc off)
     ∧ calls (world_after x) = (calls w + N + 1)%nat
     ∧ count is_getaddrinfo (events x) = (N + 1)%nat
     ∧ count (is_print FAILURE_NOTICE) (events x) = N
     ∧ count (is_print RECOVERY_NOTICE) (events x)
       = match N with O => 0%nat | S _ => 1%nat end)
  ∧ ((∀ i, (i < 10)%nat → answer (net w (calls w + i)%nat) = Ok None) →
     let x := run (set_local_time tz) w in
     outcome x = Raise (RuntimeError SYNC_FAILED_MSG)
     ∧ calls (world_after x) = (calls w + 10)%nat
     ∧ count is_getaddrinfo (events x) = 10%nat
     ∧ count (is_print FAILURE_NOTICE) (events x) = 10%nat
     ∧ count (is_print RECOVERY_NOTICE) (events x) = 0%nat
     ∧ count is_rtc (events x) = 0%nat).
Proof.
  intros Htz. split.
  - intros N utc HN Hfail Hok. cbv zeta. unfold run.
    rewrite (set_local_time_supported tz off w Htz).
    destruct (ntp_retry_recovers N 0 None w utc ltac:(lia) ltac:(lia) Hfail Hok)
      as (Ho & Hc & Hg & Hf & Hr).
    destruct (ntp_retry 0 None w) as [[r evs] w1].
    unfold outcome, events, world_after in *; cbn [fst snd] in *. subst r.
    cbn [fst snd]. rewrite !count_app, Hg, Hf, Hr.
    repeat split; try assumption; try (cbn; lia).
    destruct N; reflexivity.
  - intros Hfail. cbv zeta. unfold run.
    rewrite (set_local_time_supported tz off w Htz).
    destruct (ntp_retry_exhausts 10 0 w ltac:(lia) ltac:(lia) Hfail)
      as (Ho & Hc & Hg & Hf & Hr).
    pose proof (ntp_retry_no_rtc 10 0 None w ltac:(reflexivity)) as Hrtc.
    destruct (ntp_retry 0 None w) as [[r evs] w1].
    unfold outcome, events, world_after in *; cbn [fst snd] in *. subst r.
    cbn [fst snd]. rewrite app_nil_r.
    repeat split; assumption.
Qed.

Lemma set_local_time_retry_policy_witness :
  let x := run (set_local_time "US/Eastern") flaky_world in
  outcome x = Ok (mk_time 2024 3 10 10 2 40 6 70)
  ∧ calls (world_after x) = 3%nat
  ∧ count is_getaddrinfo (events x) = 3%nat
  ∧ count (is_print FAILURE_NOTICE) (events x) = 2%nat
  ∧ count (is_print RECOVERY_NOTICE) (events x) = 1%nat.
Proof.
  assert (Htz : TIMEZONES !! "US/Eastern" = Some (-5)) by reflexivity.
  refine (proj1 (set_local_time_retry_policy "US/Eastern" (-5) flaky_world Htz)
            2%nat (mk_time 2024 3 10 14 2 40 6 70) _ _ _).
  - lia.
  - intros [|[|i]] Hi; [reflexivity | reflexivity | lia].
  - reflexivity.
Defined.

(** C7: a zone name that is none of the four raises the unsupported-zone
    error, whose message names the four; nothing is emitted and the world is
    as before: no call to the time source, no network operation. *)
Theorem set_local_time_unsupported_zone (tz_name : string) (w : world) :
  tz_name ≠ "US/Eastern" → tz_name ≠ "US/Central" →
  tz_name ≠ "US/Mountain" → tz_name ≠ "US/Pacific" →
  run (set_local_time tz_name) w = (Raise (ValueError UNSUPPORTED_MSG), [], w)
  ∧ count is_getaddrinfo (events (run (set_local_time tz_name) w)) = 0%nat
  ∧ forallb (mentions UNSUPPORTED_MSG)
      ["US/Eastern"; "US/Central"; "US/Mountain"; "US/Pacific"] = true.
Proof.
  intros H1 H2 H3 H4.
  assert (Hnone : TIMEZONES !! tz_name = None).
  { unfold TIMEZONES. rewrite !lookup_insert_ne by congruence. apply lookup_singleton_ne. congruence. }
  unfold run, set_local_time. rewrite Hnone.
  repeat split.
Qed.

Lemma set_local_time_unsupported_zone_witness :
  run (set_local_time "Mars/Olympus") flaky_world
  = (Raise (ValueError UNSUPPORTED_MSG), [], flaky_world).
Proof.
  apply (set_local_time_unsupported_zone "Mars/Olympus" flaky_world); discriminate.
Defined.

(** C8: a call for a supported zone to which the time source answers within
    ten attempts returns the local time of the answer and sets the device
    clock exactly once, as its last action, to [(year, month, day, 0, hour,
    minute, second, 0)] of that local time; on each failure (unsupported
    zone, network unavailable, no answer in ten attempts) the clock is not
    set; and of every run whatever: a call that returns has set the clock
    once, to the tuple of the timestamp it returns, and a call that raises,
    whatever the exception, has not set it. *)
Theorem set_local_time_sets_clock_once (tz_name : string) (w : world) :
  let x := run (set_local_time tz_name) w in
  match outcome x with
  | Ok local_time =>
      List.filter is_rtc (events x)
      = [EvRtcDatetime [tm_year local_time; tm_mon local_time; tm_mday local_time; 0;
                        tm_hour local_time; tm_min local_time; tm_sec local_time; 0]]
      ∧ last (events x)
        = Some (EvRtcDatetime [tm_year local_time; tm_mon local_time; tm_mday local_time; 0;
                               tm_hour local_time; tm_min local_time; tm_sec local_time; 0])
  | Raise _ => List.filter is_rtc (events x) = []
  end
  ∧ (∀ (off : Z) (N : nat) (utc : struct_time),
       TIMEZONES !! tz_name = Some off →
       (N < 10)%nat →
       (∀ i, (i < N)%nat → answer (net w (calls w + i)%nat) = Ok None) →
       answer (net w (calls w + N)%nat) = Ok (Some utc) →
       let local_time := utc_to_local utc off in
       outcome x = Ok local_time
       ∧ List.filter is_rtc (events x)
         = [EvRtcDatetime [tm_year local_time; tm_mon local_time; tm_mday local_time; 0;
                           tm_hour local_time; tm_min local_time; tm_sec local_time; 0]]
       ∧ last (events x)
         = Some (EvRtcDatetime [tm_year local_time; tm_mon local_time; tm_mday local_time; 0;
                                tm_hour local_time; tm_min local_time; tm_sec local_time; 0]))
  ∧ (TIMEZONES !! tz_name = None →
     outcome x = Raise (ValueError UNSUPPORTED_MSG)
     ∧ List.filter is_rtc (events x) = [])
  ∧ (∀ (off : Z) (N : nat),
       TIMEZONES !! tz_name = Some off →
       (N < 10)%nat →
       (∀ i, (i < N)%nat → answer (net w (calls w + i)%nat) = Ok None) →
       net w (calls w + N)%nat = Unresolved →
       outcome x = Raise (RuntimeError NETWORK_MSG)
       ∧ List.filter is_rtc (events x) = [])
  ∧ (∀ (off : Z),
       TIMEZONES !! tz_name = Some off →
       (∀ i, (i < 10)%nat → answer (net w (calls w + i)%nat) = Ok None) →
       outcome x = Raise (RuntimeError SYNC_FAILED_MSG)
       ∧ List.filter is_rtc (events x) = []).
Proof.
  cbv zeta. unfold run.
  assert (Hloop : List.filter is_rtc (events (ntp_retry 0 None w)) = []).
  { apply nil_length_inv. apply (ntp_retry_no_rtc 10 0 None w). reflexivity. }
  split; [|split; [|split; [|split]]].
  - destruct (TIMEZONES !! tz_name) as [off|] eqn:Htz.
    + rewrite (set_local_time_supported tz_name off w Htz).
      destruct (ntp_retry 0 None w) as [[[[utc|]|e] evs] w1];
        unfold outcome, events in *; cbn [fst snd] in *.
      * rewrite List.filter_app, Hloop, last_snoc. split; reflexivity.
      * rewrite app_nil_r. exact Hloop.
      * exact Hloop.
    + unfold set_local_time. rewrite Htz. reflexivity.
  - intros off N utc Htz HN Hfail Hok.
    rewrite (set_local_time_supported tz_name off w Htz).
    destruct (ntp_retry_recovers N 0 None w utc ltac:(lia) ltac:(lia) Hfail Hok)
      as (Ho & _).
    destruct (ntp_retry 0 None w) as [[r evs] w1].
    unfold outcome, events in *; cbn [fst snd] in *. subst r. cbn [fst snd].
    rewrite List.filter_app, Hloop, last_snoc. repeat split.
  - intros Htz. unfold set_local_time. rewrite Htz. split; reflexivity.
  - intros off N Htz HN Hfail Hnet.
    rewrite (set_local_time_supported tz_name off w Htz).
    assert (Hraise : answer (net w (calls w + N)%nat) = Raise (RuntimeError NETWORK_MSG))
      by (rewrite Hnet; reflexivity).
    destruct (ntp_retry_raises N 0 None w _ ltac:(lia) ltac:(lia) Hfail Hraise)
      as (Ho & _).
    destruct (ntp_retry 0 None w) as [[r evs] w1].
    unfold outcome, events in *; cbn [fst snd] in *. subst r. cbn [fst snd].
    split; [reflexivity | exact Hloop].
  - intros off Htz Hfail.
    rewrite (set_local_time_supported tz_name off w Htz).
    destruct (ntp_retry_exhausts 10 0 w ltac:(lia) ltac:(lia) Hfail) as (Ho & _).
    destruct (ntp_retry 0 None w) as [[r evs] w1].
    unfold outcome, events in *; cbn [fst snd] in *. subst r. cbn [fst snd].
    rewrite app_nil_r. split; [reflexivity | exact Hloop].
Qed.

(** After two timeouts the third attempt is answered with 2024-03-10
    14:02:40 UTC: the call returns 10:02:40 Eastern daylight time and the
    one clock event, the last of the run, carries it. *)
Lemma set_local_time_sets_clock_once_witness :
  let x := run (set_local_time "US/Eastern") flaky_world in
  outcome x = Ok (mk_time 2024 3 10 10 2 40 6 70)
  ∧ List.filter is_rtc (events x) = [EvRtcDatetime [2024; 3; 10; 0; 10; 2; 40; 0]]
  ∧ last (events x) = Some (EvRtcDatetime [2024; 3; 10; 0; 10; 2; 40; 0]).
Proof.
  assert (Htz : TIMEZONES !! "US/Eastern" = Some (-5)) by reflexivity.
  refine (proj1 (proj2 (set_local_time_sets_clock_once "US/Eastern" flaky_world))
            (-5) 2%nat (mk_time 2024 3 10 14 2 40 6 70) Htz _ _ _).
  - lia.
  - intros [|[|i]] Hi; [reflexivity | reflexivity | lia].
  - reflexivity.
Defined.

(** ** The failures of [get_ntp_time] *)

(** A reply too short to hold the transmit timestamp is not turned into
    [None]: the error of [struct.unpack] leaves [get_ntp_time]. *)
Lemma get_ntp_time_short_reply_raises :
  net short_reply_world (calls short_reply_world) = Reply short_reply
  ∧ (length short_reply < 44)%nat
  ∧ outcome (run (get_ntp_time NTP_HOST) short_reply_world)
    = Raise (ValueError "buffer too small")
  ∧ outcome (run (get_ntp_time NTP_HOST) short_reply_world) ≠ Ok None.
Proof. repeat split; [cbn; lia | discriminate]. Qed.

Lemma parse_reply_long datagram :
  (44 <= length datagram)%nat → ∃ utc, parse_reply (take 48 datagram) = Ok (Some utc).
Proof.
  intros Hlen. unfold parse_reply.
  assert (Hl : length (slice (take 48 datagram) 40 44) = 4%nat).
  { unfold slice. rewrite length_take, length_drop, length_take. lia. }
  destruct (slice (take 48 datagram) 40 44) as [|b0 [|b1 [|b2 [|b3 [|b4 rest]]]]];
    try discriminate Hl.
  eexists. reflexivity.
Qed.

(** C6, amended: a socket error or a timeout while the request is sent or
    the reply awaited gives [None]; the network-unavailable error is raised
    when the address resolution fails and only then; a reply of at least 44
    bytes gives a timestamp. *)
Theorem get_ntp_time_failures (host : string) (w : world) :
  let x := run (get_ntp_time host) w in
  (∀ errno, net w (calls w) = SendError errno → outcome x = Ok None)
  ∧ (net w (calls w) = RecvTimeout → outcome x = Ok None)
  ∧ (∀ errno, net w (calls w) = RecvError errno → outcome x = Ok None)
  ∧ (outcome x = Raise (RuntimeError NETWORK_MSG) ↔ net w (calls w) = Unresolved)
  ∧ (∀ datagram, net w (calls w) = Reply datagram → (44 <= length datagram)%nat →
     ∃ utc, outcome x = Ok (Some utc)).
Proof.
  cbv zeta. unfold run. rewrite get_ntp_time_cases. cbv zeta.
  repeat split.
  - intros errno ->. reflexivity.
  - intros ->. reflexivity.
  - intros errno ->. reflexivity.
  - destruct (net w (calls w)) as [|errno| |errno|datagram]; try discriminate; [reflexivity|].
    unfold outcome, parse_reply; cbn [fst snd].
    destruct (slice (take 48 datagram) 40 44) as [|b0 [|b1 [|b2 [|b3 [|b4 rest]]]]];
      discriminate.
  - intros ->. reflexivity.
  - intros datagram -> Hlen. unfold outcome; cbn [fst snd].
    apply parse_reply_long. exact Hlen.
Qed.

(** ** The socket of [get_ntp_time] *)

(** C9: when a call creates a socket, closing that socket is the last thing
    the call does, and the socket is not among the open ones afterwards;
    this holds whether the call returns a timestamp, returns [None] or
    raises. *)
Theorem get_ntp_time_closes_socket (host : string) (w : world) (fd : nat) :
  EvSocket fd ∈ events (run (get_ntp_time host) w) →
  last (events (run (get_ntp_time host) w)) = Some (EvClose fd)
  ∧ fd ∉ open_fds (world_after (run (get_ntp_time host) w)).
Proof.
  unfold run. rewrite get_ntp_time_cases. cbv zeta.
  destruct (net w (calls w)) as [|errno| |errno|datagram];
    unfold events, world_after; cbn [fst snd exchanged open_fds app];
    intros Hin.
  1: { apply list_elem_of_singleton in Hin. discriminate. }
  all: assert (fd = next_fd w) as ->
         by (repeat (apply elem_of_cons in Hin as [Hin|Hin]; [congruence|]);
             apply elem_of_nil in Hin; contradiction).
  all: split; [reflexivity|];
    intros [_ Hn]%elem_of_difference; apply Hn, elem_of_singleton; reflexivity.
Qed.

(** The exception raised while the reply is parsed comes after the close. *)
Lemma get_ntp_time_closes_socket_witness :
  last (events (run (get_ntp_time NTP_HOST) short_reply_world)) = Some (EvClose 3)
  ∧ 3%nat ∉ open_fds (world_after (run (get_ntp_time NTP_HOST) short_reply_world)).
Proof.
  apply (get_ntp_time_closes_socket NTP_HOST short_reply_world 3).
  apply (list_elem_of_lookup_2 _ 1%nat). reflexivity.
Defined.

(** The socket is created on every path but the failed address resolution. *)
Lemma get_ntp_time_creates_socket host w :
  EvSocket (next_fd w) ∈ events (run (get_ntp_time host) w)
  ↔ net w (calls w) ≠ Unresolved.
Proof.
  unfold run. rewrite get_ntp_time_cases. cbv zeta.
  destruct (net w (calls w)) as [|errno| |errno|datagram];
    unfold events; cbn [fst snd app]; split; intros H; try discriminate; try congruence.
  1: { apply list_elem_of_singleton in H. discriminate. }
  all: apply (list_elem_of_lookup_2 _ 1%nat); reflexivity.
Qed.

(** * Further properties *)

(** ** The DST period *)

Ltac eval_closed_tests :=
  repeat match goal with
    | |- context [if ?c then _ else _] =>
        lazymatch c with
        | context [time.is_leap] => fail
        | _ => let v := eval vm_compute in c in
               lazymatch v with
               | true => change c with true
               | false => change c with false
               end; cbv iota
        end
    end.

Lemma dst_start_day_range year : 8 <= dst_start_day year <= 14.
Proof.
  unfold dst_start_day. rewrite march1_wday_eq.
  pose proof (weekday_of_range year 3 1).
  destruct (Z.leb_spec (weekday_of year 3 1) 6); lia.
Qed.

Lemma dst_end_day_range year : 1 <= dst_end_day year <= 7.
Proof.
  unfold dst_end_day.
  pose proof (Z.mod_pos_bound (7 - nov1_wday year) 7). lia.
Qed.

(** X3: for a well-formed timestamp [is_dst] holds exactly when its instant
    lies between 02:00 of the start day, included, and 02:00 of the end day,
    excluded, of its year: the DST period is one interval of the local
    clock. *)
Theorem is_dst_interval (t : struct_time) :
  well_formed t →
  (is_dst t = true
   ↔ dst_start_instant (tm_year t) <= time.mktime t < dst_end_instant (tm_year t)).
Proof.
  intros (Hm & Hd & Hh & Hmi & Hs & _).
  destruct t as [y m d h mi s wd yd].
  cbn [tm_year tm_mon tm_mday tm_hour tm_min tm_sec] in *.
  unfold is_dst, dst_start_instant, dst_end_instant, time.mktime, time.ymd_to_ord.
  cbn [tm_year tm_mon tm_mday tm_hour tm_min tm_sec].
  pose proof (dst_start_day_range y) as HS.
  pose proof (dst_end_day_range y) as HE.
  generalize dependent (dst_start_day y). intros S HS.
  generalize dependent (dst_end_day y). intros E HE.
  generalize (time.days_before_year y). intros dby.
  unfold time.days_before_month, time.days_in_month in *.
  assert (Hcases : m = 1 ∨ m = 2 ∨ m = 3 ∨ m = 4 ∨ m = 5 ∨ m = 6 ∨ m = 7
                   ∨ m = 8 ∨ m = 9 ∨ m = 10 ∨ m = 11 ∨ m = 12) by lia.
  destruct Hcases as [->|[->|[->|[->|[->|[->|[->|[->|[->|[->|[->| ->]]]]]]]]]]];
    revert Hd; eval_closed_tests; destruct (time.is_leap y); intros Hd;
    rewrite ?Z.gtb_ltb, ?Z.geb_leb;
    repeat match goal with
      | |- context [?a <? ?b] => destruct (Z.ltb_spec a b)
      | |- context [?a <=? ?b] => destruct (Z.leb_spec a b)
      | |- context [?a =? ?b] => destruct (Z.eqb_spec a b)
      end;
    split; intros; try discriminate; try reflexivity; try lia.
Qed.

Lemma is_dst_interval_witness :
  is_dst (mk_time 2024 3 10 2 0 0 6 70) = true
  ↔ dst_start_instant 2024 <= time.mktime (mk_time 2024 3 10 2 0 0 6 70)
     < dst_end_instant 2024.
Proof.
  apply (is_dst_interval (mk_time 2024 3 10 2 0 0 6 70)).
  vm_compute. repeat split; discriminate.
Defined.

(** ** The hour skipped in spring *)

(** An hour before a timestamp whose hour is 2 it is 1 o'clock of the same
    day. *)
Lemma localtime_hour_before secs :
  tm_hour (time.localtime (secs + 3600)) = 2 →
  tm_year (time.localtime secs) = tm_year (time.localtime (secs + 3600))
  ∧ tm_mon (time.localtime secs) = tm_mon (time.localtime (secs + 3600))
  ∧ tm_mday (time.localtime secs) = tm_mday (time.localtime (secs + 3600))
  ∧ tm_hour (time.localtime secs) = 1.
Proof.
  unfold time.localtime.
  destruct (time.ord_to_ymd ((secs + 3600) / 86400 + time.EPOCH_ORD)) as [[y m] d] eqn:Hymd.
  cbn [tm_year tm_mon tm_mday tm_hour]. intros Hh.
  assert (Hday : secs / 86400 = (secs + 3600) / 86400)
    by (Z.div_mod_to_equations; lia).
  rewrite Hday, Hymd. cbn [tm_year tm_mon tm_mday tm_hour].
  repeat split. Z.div_mod_to_equations; lia.
Qed.

(** On the start day [is_dst] is decided by the hour alone. *)
Lemma is_dst_on_start_day t :
  tm_mon t = 3 → tm_mday t = dst_start_day (tm_year t) →
  is_dst t = (tm_hour t >=? 2).
Proof.
  intros Hm Hd. unfold is_dst.
  generalize dependent (dst_start_day (tm_year t)). intros S Hd.
  generalize (dst_end_day (tm_year t)). intros E.
  rewrite Hm, Hd.
  rewrite (Z.gtb_ltb S S), (Z.ltb_irrefl S), (Z.eqb_refl S). reflexivity.
Qed.

Lemma in_skipped_hour_true t :
  in_skipped_hour t = true →
  tm_mon t = 3 ∧ tm_mday t = dst_start_day (tm_year t) ∧ tm_hour t = 2.
Proof.
  unfold in_skipped_hour. generalize (dst_start_day (tm_year t)). intros S H.
  apply andb_true_iff in H as [H Hh]. apply andb_true_iff in H as [Hm Hd].
  apply Z.eqb_eq in Hh, Hm, Hd. auto.
Qed.

(** The step of [utc_to_local] for a probe [p] and the timestamp [r] an hour
    after it. *)
Lemma skipped_hour_avoided (p r : struct_time) :
  (tm_hour r = 2 →
   tm_year p = tm_year r ∧ tm_mon p = tm_mon r ∧ tm_mday p = tm_mday r
   ∧ tm_hour p = 1) →
  in_skipped_hour (if is_dst p then r else p) = false.
Proof.
  intros Hback. destruct (is_dst p) eqn:Hdst.
  - destruct (in_skipped_hour r) eqn:Hskip; [|reflexivity].
    apply in_skipped_hour_true in Hskip as (Hm & Hd & Hh).
    destruct (Hback Hh) as (Hy' & Hm' & Hd' & Hh').
    rewrite is_dst_on_start_day, Hh' in Hdst by congruence.
    discriminate Hdst.
  - destruct (in_skipped_hour p) eqn:Hskip; [|reflexivity].
    apply in_skipped_hour_true in Hskip as (Hm & Hd & Hh).
    rewrite is_dst_on_start_day, Hh in Hdst by assumption.
    discriminate Hdst.
Qed.

Lemma utc_to_local_eq utc_time tz_offset :
  utc_to_local utc_time tz_offset =
  if is_dst (time.localtime (time.mktime utc_time + tz_offset * 3600))
  then time.localtime (time.mktime utc_time + tz_offset * 3600 + 3600)
  else time.localtime (time.mktime utc_time + tz_offset * 3600).
Proof. unfold utc_to_local. exact eq_refl. Qed.

(** X4: whatever the UTC timestamp and the offset, the local time that
    [utc_to_local] gives is never in the skipped hour, 02:00 to 02:59 of the
    start day: a standard time in that hour is moved to the hour after
    it, and no standard time is moved into it. *)
Theorem utc_to_local_skips_spring_hour (utc_time : struct_time) (tz_offset : Z) :
  in_skipped_hour (utc_to_local utc_time tz_offset) = false.
Proof.
  rewrite utc_to_local_eq.
  apply skipped_hour_avoided. apply localtime_hour_before.
Qed.

(** ** The transmit timestamp *)

Lemma byte_val_range b : 0 <= struct.byte_val b <= 255.
Proof.
  unfold struct.byte_val. pose proof (Byte.to_N_bounded b). lia.
Qed.

Lemma byte_val_of z : 0 <= z < 256 → struct.byte_val (byte_of z) = z.
Proof.
  intros Hz. unfold struct.byte_val, byte_of.
  pose proof (Byte.to_of_N_option_map (Z.to_N z)) as Hmap.
  destruct (Byte.of_N (Z.to_N z)) as [b|]; cbn [option_map default from_option id] in *.
  - destruct (N.leb_spec (Z.to_N z) 255); [|discriminate].
    injection Hmap as ->. lia.
  - destruct (N.leb_spec (Z.to_N z) 255); [discriminate | lia].
Qed.

(** Below [2 ^ n] a number shares no bit with a number shifted by [n]. *)
Lemma lor_shiftl_add hi lo n :
  0 <= n → 0 <= lo < 2 ^ n → Z.lor (Z.shiftl hi n) lo = hi * 2 ^ n + lo.
Proof.
  intros Hn Hlo.
  assert (Hland : Z.land (Z.shiftl hi n) lo = 0).
  { apply Z.bits_inj'. intros m Hm. rewrite Z.land_spec, Z.bits_0.
    destruct (Z.lt_ge_cases m n) as [Hlt|Hge].
    - rewrite Z.shiftl_spec_low by exact Hlt. reflexivity.
    - rewrite <- (Z.mod_small lo (2 ^ n)) by exact Hlo.
      rewrite Z.mod_pow2_bits_high by lia. apply andb_false_r. }
  rewrite <- Z.lxor_lor by exact Hland.
  rewrite <- Z.add_nocarry_lxor by exact Hland.
  rewrite Z.shiftl_mul_pow2 by exact Hn. reflexivity.
Qed.

(** The number that [struct.unpack] reads off four bytes. *)
Lemma be32_value b0 b1 b2 b3 :
  Z.lor (Z.shiftl (struct.byte_val b0) 24)
    (Z.lor (Z.shiftl (struct.byte_val b1) 16)
       (Z.lor (Z.shiftl (struct.byte_val b2) 8) (struct.byte_val b3)))
  = struct.byte_val b0 * 16777216 + struct.byte_val b1 * 65536
    + struct.byte_val b2 * 256 + struct.byte_val b3.
Proof.
  pose proof (byte_val_range b0). pose proof (byte_val_range b1).
  pose proof (byte_val_range b2). pose proof (byte_val_range b3).
  rewrite (lor_shiftl_add (struct.byte_val b2) (struct.byte_val b3) 8) by lia.
  rewrite (lor_shiftl_add (struct.byte_val b1) _ 16) by lia.
  rewrite (lor_shiftl_add (struct.byte_val b0) _ 24) by lia.
  lia.
Qed.

(** X5: a reply that holds the seconds [v] of the transmit timestamp as four
    big-endian bytes at offset 40 is decoded to the UTC timestamp of
    [v - NTP_DELTA]; the forty bytes before and whatever follows are not
    looked at. *)
Theorem get_ntp_time_decodes_reply (host : string) (w : world)
    (header trailer : list byte) (v : Z) :
  length header = 40%nat →
  0 <= v < 4294967296 →
  net w (calls w) = Reply (header ++ be32_bytes v ++ trailer) →
  outcome (run (get_ntp_time host) w) = Ok (Some (time.gmtime (v - NTP_DELTA))).
Proof.
  intros Hlen Hv Hnet. unfold run. rewrite get_ntp_time_cases, Hnet.
  cbv zeta. unfold outcome. cbn [fst]. unfold parse_reply.
  assert (Hslice : slice (take 48 (header ++ be32_bytes v ++ trailer)) 40 44
                   = be32_bytes v).
  { unfold slice. change (44 - 40)%nat with 4%nat.
    rewrite take_drop_commute, take_take.
    change (40 + 4 `min` 48)%nat with (40 + 4)%nat.
    rewrite (take_app_add' header _ 40 4) by (symmetry; exact Hlen).
    rewrite (drop_app_length' header _ 40) by (symmetry; exact Hlen).
    reflexivity. }
  rewrite Hslice. unfold be32_bytes. rewrite be32_value.
  rewrite !byte_val_of by (Z.div_mod_to_equations; lia).
  do 3 f_equal. Z.div_mod_to_equations; lia.
Qed.

Lemma get_ntp_time_decodes_reply_witness :
  outcome (run (get_ntp_time NTP_HOST) prompt_world)
  = Ok (Some (time.gmtime (3919068160 - NTP_DELTA))).
Proof.
  apply (get_ntp_time_decodes_reply NTP_HOST prompt_world
           (replicate 40 Byte.x00) (replicate 4 Byte.x00) 3919068160).
  - reflexivity.
  - lia.
  - reflexivity.
Defined.

(** X6: a timestamp that [get_ntp_time] returns is never before 1900-01-01
    00:00:00 nor after 2036-02-07 06:28:15: its epoch instant is an unsigned
    32-bit number less [NTP_DELTA]. *)
Theorem get_ntp_time_range (host : string) (w : world) (utc : struct_time) :
  outcome (run (get_ntp_time host) w) = Ok (Some utc) →
  time.mktime (mk_time 1900 1 1 0 0 0 0 0) <= time.mktime utc
  ∧ time.mktime utc <= time.mktime (mk_time 2036 2 7 6 28 15 0 0).
Proof.
  unfold run. rewrite get_ntp_time_cases. cbv zeta.
  destruct (net w (calls w)) as [|errno| |errno|datagram];
    unfold outcome; cbn [fst]; intros H; try discriminate H.
  unfold parse_reply in H.
  destruct (slice (take 48 datagram) 40 44) as [|b0 [|b1 [|b2 [|b3 [|b4 rest]]]]];
    try discriminate H.
  injection H as <-. unfold time.gmtime. rewrite mktime_localtime, be32_value.
  pose proof (byte_val_range b0). pose proof (byte_val_range b1).
  pose proof (byte_val_range b2). pose proof (byte_val_range b3).
  change (time.mktime (mk_time 1900 1 1 0 0 0 0 0)) with (-2208988800).
  change (time.mktime (mk_time 2036 2 7 6 28 15 0 0)) with 2085978495.
  unfold NTP_DELTA. lia.
Qed.

Lemma get_ntp_time_range_witness :
  time.mktime (mk_time 1900 1 1 0 0 0 0 0)
    <= time.mktime (mk_time 2024 3 10 14 2 40 6 70)
  ∧ time.mktime (mk_time 2024 3 10 14 2 40 6 70)
    <= time.mktime (mk_time 2036 2 7 6 28 15 0 0).
Proof.
  apply (get_ntp_time_range NTP_HOST prompt_world (mk_time 2024 3 10 14 2 40 6 70)).
  reflexivity.
Defined.

(** ** What a synchronisation costs the network *)

Lemma count_nil p : count p [] = 0%nat.
Proof. reflexivity. Qed.

Ltac count_simpl :=
  rewrite ?count_app, ?count_cons, ?count_nil;
  cbn [is_getaddrinfo is_sendto is_socket is_close is_rtc].

(** One call: one resolution, at most one datagram sent, and as many
    sockets closed as opened. *)
Lemma get_ntp_time_traffic host w :
  let x := get_ntp_time host w in
  (count is_sendto (events x) <= 1)%nat
  ∧ count is_socket (events x) = count is_close (events x).
Proof.
  cbv zeta. rewrite get_ntp_time_cases.
  destruct (net w (calls w)); unfold events, count; cbn; split; lia.
Qed.

Lemma ntp_retry_traffic (n : nat) : ∀ retries utc_time w,
  Z.to_nat (10 - retries) = n →
  let x := ntp_retry retries utc_time w in
  (count is_getaddrinfo (events x) <= n)%nat
  ∧ (n ≠ 0%nat → 1 <= count is_getaddrinfo (events x))%nat
  ∧ calls (world_after x) = (calls w + count is_getaddrinfo (events x))%nat
  ∧ (count is_sendto (events x) <= count is_getaddrinfo (events x))%nat
  ∧ count is_socket (events x) = count is_close (events x).
Proof.
  induction n as [|n IH]; intros retries utc_time w Hn; cbv zeta.
  - rewrite ntp_retry_exit by lia.
    unfold events, world_after, count; cbn. repeat split; lia.
  - rewrite ntp_retry_iter by lia.
    destruct (get_ntp_time_effects NTP_HOST w) as (Hga & _ & _ & Hcalls & _).
    destruct (get_ntp_time_traffic NTP_HOST w) as (Hsend & Hsock).
    destruct (get_ntp_time NTP_HOST w) as [[[[t|]|e] evs] w1];
      unfold events, world_after in *; cbn [fst snd] in *.
    + destruct (0 <? retries); count_simpl; repeat split; lia.
    + specialize (IH (retries + 1) None w1 ltac:(lia)).
      destruct (ntp_retry (retries + 1) None w1) as [[r evs'] w2].
      unfold events, world_after in *; cbn [fst snd] in *.
      destruct IH as (Hle & _ & Hc & Hs & Hk).
      count_simpl. repeat split; lia.
    + repeat split; lia.
Qed.

(** X7: whatever the zone name and whatever the network does,
    [set_local_time] resolves the host at most ten times (and at least once
    for a supported zone), moves on by as many attempts of the network,
    sends at most one datagram per resolution, and closes as many sockets as
    it opens. *)
Theorem set_local_time_network_use (tz_name : string) (w : world) :
  let x := run (set_local_time tz_name) w in
  (count is_getaddrinfo (events x) <= 10)%nat
  ∧ (is_Some (TIMEZONES !! tz_name) → 1 <= count is_getaddrinfo (events x))%nat
  ∧ calls (world_after x) = (calls w + count is_getaddrinfo (events x))%nat
  ∧ (count is_sendto (events x) <= count is_getaddrinfo (events x))%nat
  ∧ count is_socket (events x) = count is_close (events x).
Proof.
  cbv zeta. unfold run.
  destruct (TIMEZONES !! tz_name) as [off|] eqn:Htz.
  - rewrite (set_local_time_supported tz_name off w Htz).
    destruct (ntp_retry_traffic 10 0 None w ltac:(reflexivity))
      as (Hle & Hge & Hc & Hs & Hk).
    specialize (Hge ltac:(lia)).
    destruct (ntp_retry 0 None w) as [[[[utc|]|e] evs] w1];
      unfold events, world_after in *; cbn [fst snd] in *;
      rewrite ?app_nil_r; count_simpl; repeat split; try lia.
  - unfold set_local_time. rewrite Htz.
    unfold events, world_after, count; cbn.
    repeat split; try lia. intros [? ?]; discriminate.
Qed.

(** ** Errors of the time source are not retried *)

(** X8: for a supported zone, when the time source gives no answer on the
    first [N] attempts, [N < 10], and raises on the next (the network is
    unavailable, or the reply cannot be unpacked), [set_local_time] raises
    that exception after [N + 1] calls: it does not try again, prints no
    recovery notice and does not set the clock. *)
Theorem set_local_time_error_not_retried
    (tz_name : string) (off : Z) (w : world) (N : nat) (e : exn) :
  TIMEZONES !! tz_name = Some off →
  (N < 10)%nat →
  (∀ i, (i < N)%nat → answer (net w (calls w + i)%nat) = Ok None) →
  answer (net w (calls w + N)%nat) = Raise e →
  let x := run (set_local_time tz_name) w in
  outcome x = Raise e
  ∧ calls (world_after x) = (calls w + N + 1)%nat
  ∧ count (is_print FAILURE_NOTICE) (events x) = N
  ∧ count (is_print RECOVERY_NOTICE) (events x) = 0%nat
  ∧ count is_rtc (events x) = 0%nat.
Proof.
  intros Htz HN Hfail Hraise. cbv zeta. unfold run.
  rewrite (set_local_time_supported tz_name off w Htz).
  destruct (ntp_retry_raises N 0 None w e ltac:(lia) ltac:(lia) Hfail Hraise)
    as (Ho & Hc & Hf & Hr).
  pose proof (ntp_retry_no_rtc 10 0 None w ltac:(reflexivity)) as Hrtc.
  destruct (ntp_retry 0 None w) as [[r evs] w1].
  unfold outcome, events, world_after in *; cbn [fst snd] in *. subst r.
  cbn [fst snd]. repeat split; assumption.
Qed.

Lemma set_local_time_error_not_retried_witness :
  let x := run (set_local_time "US/Pacific") unplugged_world in
  outcome x = Raise (RuntimeError NETWORK_MSG)
  ∧ calls (world_after x) = 2%nat
  ∧ count (is_print FAILURE_NOTICE) (events x) = 1%nat
  ∧ count (is_print RECOVERY_NOTICE) (events x) = 0%nat
  ∧ count is_rtc (events x) = 0%nat.
Proof.
  assert (Htz : TIMEZONES !! "US/Pacific" = Some (-8)) by reflexivity.
  refine (set_local_time_error_not_retried "US/Pacific" (-8) unplugged_world 1%nat
            (RuntimeError NETWORK_MSG) Htz _ _ _).
  - lia.
  - intros [|i] Hi; [reflexivity | lia].
  - reflexivity.
Defined.

(** ** No socket is left open *)

Lemma get_ntp_time_keeps_fds host w :
  fds_fresh w →
  open_fds (world_after (get_ntp_time host w)) = open_fds w
  ∧ fds_fresh (world_after (get_ntp_time host w)).
Proof.
  intros Hfresh. rewrite get_ntp_time_cases. cbv zeta.
  assert (Hnew : next_fd w ∉ open_fds w).
  { intros Hin. apply Hfresh in Hin. lia. }
  assert (Hsame : ({[next_fd w]} ∪ open_fds w) ∖ {[next_fd w]} = open_fds w).
  { apply set_eq. intros fd.
    rewrite elem_of_difference, elem_of_union, elem_of_singleton.
    split.
    - intros [[Heq|Hin] Hne]; [contradiction | exact Hin].
    - intros Hin. split; [right; exact Hin | intros ->; contradiction]. }
  destruct (net w (calls w)); unfold world_after; cbn [snd].
  1: { split; [reflexivity | exact Hfresh]. }
  all: unfold exchanged, fds_fresh; cbn [open_fds next_fd]; rewrite Hsame;
    split; [reflexivity|]; intros fd Hin; apply Hfresh in Hin; lia.
Qed.

Lemma ntp_retry_keeps_fds (n : nat) : ∀ retries utc_time w,
  Z.to_nat (10 - retries) = n →
  fds_fresh w →
  open_fds (world_after (ntp_retry retries utc_time w)) = open_fds w
  ∧ fds_fresh (world_after (ntp_retry retries utc_time w)).
Proof.
  induction n as [|n IH]; intros retries utc_time w Hn Hfresh.
  - rewrite ntp_retry_exit by lia. split; [reflexivity | exact Hfresh].
  - rewrite ntp_retry_iter by lia.
    destruct (get_ntp_time_keeps_fds NTP_HOST w Hfresh) as (Hopen & Hfresh1).
    destruct (get_ntp_time NTP_HOST w) as [[[[t|]|e] evs] w1];
      unfold world_after in *; cbn [snd] in *.
    + split; assumption.
    + destruct (IH (retries + 1) None w1 ltac:(lia) Hfresh1) as (Hopen2 & Hfresh2).
      destruct (ntp_retry (retries + 1) None w1) as [[r evs'] w2].
      unfold world_after in *; cbn [snd] in *.
      split; [congruence | exact Hfresh2].
    + split; assumption.
Qed.

(** X9: in a world where the next descriptor is new, [set_local_time]
    leaves the set of open sockets as it found it, however it ends and
    however many attempts it made, and the next descriptor is new again. *)
Theorem set_local_time_leaves_no_socket (tz_name : string) (w : world) :
  fds_fresh w →
  open_fds (world_after (run (set_local_time tz_name) w)) = open_fds w
  ∧ fds_fresh (world_after (run (set_local_time tz_name) w)).
Proof.
  intros Hfresh. unfold run.
  destruct (TIMEZONES !! tz_name) as [off|] eqn:Htz.
  - rewrite (set_local_time_supported tz_name off w Htz).
    destruct (ntp_retry_keeps_fds 10 0 None w ltac:(reflexivity) Hfresh)
      as (Hopen & Hfresh1).
    destruct (ntp_retry 0 None w) as [[[[utc|]|e] evs] w1];
      unfold world_after in *; cbn [snd] in *; split; assumption.
  - unfold set_local_time. rewrite Htz. split; [reflexivity | exact Hfresh].
Qed.

Lemma set_local_time_leaves_no_socket_witness :
  open_fds (world_after (run (set_local_time "US/Central") flaky_world))
  = open_fds flaky_world.
Proof.
  apply (set_local_time_leaves_no_socket "US/Central" flaky_world).
  intros fd Hin. apply elem_of_empty in Hin. contradiction.
Defined.

(** ** What the device clock is set to *)

Lemma utc_to_local_well_formed utc_time tz_offset :
  well_formed (utc_to_local utc_time tz_offset).
Proof.
  rewrite utc_to_local_eq.
  destruct (is_dst _); apply localtime_well_formed.
Qed.

Lemma count_zero_not_in p evs e :
  count p evs = 0%nat → e ∈ evs → p e = false.
Proof.
  unfold count. intros Hz Hin. apply nil_length_inv in Hz.
  destruct (p e) eqn:Hp; [|reflexivity].
  assert (Hf : In e (List.filter p evs)).
  { apply List.filter_In. split; [apply list_elem_of_In; exact Hin | exact Hp]. }
  rewrite Hz in Hf. destruct Hf.
Qed.

(** X10: whatever [set_local_time] hands to the device clock is the tuple
    of a well-formed timestamp, with 0 for the weekday and for the
    subseconds: month 1..12, a day that the month has, hour 0..23, minute
    and second 0..59; and that timestamp is what the call returns. *)
Theorem set_local_time_sets_valid_date (tz_name : string) (w : world) (tm : list Z) :
  EvRtcDatetime tm ∈ events (run (set_local_time tz_name) w) →
  ∃ t, outcome (run (set_local_time tz_name) w) = Ok t
       ∧ well_formed t
       ∧ tm = [tm_year t; tm_mon t; tm_mday t; 0; tm_hour t; tm_min t; tm_sec t; 0].
Proof.
  unfold run.
  destruct (TIMEZONES !! tz_name) as [off|] eqn:Htz.
  - rewrite (set_local_time_supported tz_name off w Htz).
    pose proof (ntp_retry_no_rtc 10 0 None w ltac:(reflexivity)) as Hrtc.
    destruct (ntp_retry 0 None w) as [[[[utc|]|e] evs] w1];
      unfold outcome, events in *; cbn [fst snd] in *; intros Hin.
    + apply elem_of_app in Hin as [Hin|Hin].
      * apply (count_zero_not_in _ _ _ Hrtc) in Hin. discriminate Hin.
      * apply list_elem_of_singleton in Hin. injection Hin as ->.
        exists (utc_to_local utc off).
        split; [reflexivity|]. split; [apply utc_to_local_well_formed | reflexivity].
    + rewrite app_nil_r in Hin.
      apply (count_zero_not_in _ _ _ Hrtc) in Hin. discriminate Hin.
    + apply (count_zero_not_in _ _ _ Hrtc) in Hin. discriminate Hin.
  - unfold set_local_time. rewrite Htz. unfold events; cbn [fst snd mthrow M_throw].
    intros Hin. apply elem_of_nil in Hin. contradiction.
Qed.

Lemma set_local_time_sets_valid_date_witness :
  ∃ t, outcome (run (set_local_time "US/Eastern") prompt_world) = Ok t
       ∧ well_formed t
       ∧ [2024; 3; 10; 0; 10; 2; 40; 0]
         = [tm_year t; tm_mon t; tm_mday t; 0; tm_hour t; tm_min t; tm_sec t; 0].
Proof.
  apply (set_local_time_sets_valid_date "US/Eastern" prompt_world
           [2024; 3; 10; 0; 10; 2; 40; 0]).
  apply (list_elem_of_lookup_2 _ 6%nat). reflexivity.
Defined.

(** ** The boundary weeks *)

(** X11: the start day lies in the second week of March and the end day in
    the first week of November, so [is_dst] is false on March 1st to 7th and
    from November 8th on, and true from March 15th on, whatever the year
    and the hour. *)
Theorem is_dst_outside_boundary_weeks (t : struct_time) :
  (tm_mon t = 3 → tm_mday t < 8 → is_dst t = false)
  ∧ (tm_mon t = 3 → 14 < tm_mday t → is_dst t = true)
  ∧ (tm_mon t = 11 → 7 < tm_mday t → is_dst t = false).
Proof.
  pose proof (dst_start_day_range (tm_year t)) as HS.
  pose proof (dst_end_day_range (tm_year t)) as HE.
  unfold is_dst.
  generalize dependent (dst_start_day (tm_year t)). intros S HS.
  generalize dependent (dst_end_day (tm_year t)). intros E HE.
  repeat split; intros Hm Hd; rewrite Hm.
  - change ((3 <? 3) || (3 >? 11)) with false.
    change ((3 <? 3) && (3 <? 11)) with false.
    change (3 =? 3) with true. cbv iota.
    rewrite Z.gtb_ltb.
    destruct (Z.ltb_spec S (tm_mday t)); [lia|].
    destruct (Z.eqb_spec (tm_mday t) S); [lia | reflexivity].
  - change ((3 <? 3) || (3 >? 11)) with false.
    change ((3 <? 3) && (3 <? 11)) with false.
    change (3 =? 3) with true. cbv iota.
    rewrite Z.gtb_ltb.
    destruct (Z.ltb_spec S (tm_mday t)); [reflexivity | lia].
  - change ((11 <? 3) || (11 >? 11)) with false.
    change ((3 <? 11) && (11 <? 11)) with false.
    change (11 =? 3) with false.
    change (11 =? 11) with true. cbv iota.
    destruct (Z.ltb_spec (tm_mday t) E); [lia|].
    destruct (Z.eqb_spec (tm_mday t) E); [lia | reflexivity].
Qed.

(** ** The zones *)

Lemma TIMEZONES_offsets tz_name off :
  TIMEZONES !! tz_name = Some off → -8 <= off <= -5.
Proof.
  unfold TIMEZONES. intros H.
  destruct (decide (tz_name = "US/Eastern")) as [->|H1];
    [rewrite lookup_insert_eq in H; injection H as <-; lia|].
  rewrite lookup_insert_ne in H by congruence.
  destruct (decide (tz_name = "US/Central")) as [->|H2];
    [rewrite lookup_insert_eq in H; injection H as <-; lia|].
  rewrite lookup_insert_ne in H by congruence.
  destruct (decide (tz_name = "US/Mountain")) as [->|H3];
    [rewrite lookup_insert_eq in H; injection H as <-; lia|].
  rewrite lookup_insert_ne in H by congruence.
  destruct (decide (tz_name = "US/Pacific")) as [->|H4];
    [rewrite lookup_singleton_eq in H; injection H as <-; lia|].
  rewrite lookup_singleton_ne in H by congruence. discriminate H.
Qed.

(** X12: with the offset of any zone of the table, the local time of
    [utc_to_local] is behind the UTC time by four hours at least and eight
    hours at most. *)
Theorem utc_to_local_behind_utc (tz_name : string) (off : Z) (utc_time : struct_time) :
  TIMEZONES !! tz_name = Some off →
  time.mktime utc_time - 8 * 3600
    <= time.mktime (utc_to_local utc_time off)
    <= time.mktime utc_time - 4 * 3600.
Proof.
  intros Htz. apply TIMEZONES_offsets in Htz.
  rewrite utc_to_local_eq.
  destruct (is_dst _); rewrite mktime_localtime; lia.
Qed.

Lemma utc_to_local_behind_utc_witness :
  time.mktime (mk_time 2024 7 4 18 0 0 3 186) - 8 * 3600
    <= time.mktime (utc_to_local (mk_time 2024 7 4 18 0 0 3 186) (-7))
    <= time.mktime (mk_time 2024 7 4 18 0 0 3 186) - 4 * 3600.
Proof.
  apply (utc_to_local_behind_utc "US/Mountain" (-7) (mk_time 2024 7 4 18 0 0 3 186)).
  reflexivity.
Defined.
